(** * Verification of [src/base/logging.h]: checks and fatal-error reporting

    The header declares the fatal reporter [V8_Fatal], defines one inline
    comparison helper per operand kind ([CheckEqualsHelper] and
    [CheckNonEqualsHelper] overloads) and a layer of preprocessor macros
    ([CHECK], [ASSERT], [UNREACHABLE], ...) whose expansion depends on the
    build configuration.

    The development is a shallow embedding.  C++ statements become
    computations in a small state-and-error monad [M]: a computation either
    returns normally, or ends in a call of [V8_Fatal] (which never returns),
    or fails in [operator new], or performs an undefined read.  The machine
    state holds the byte memory that [const char*] operands point into, the
    free store used by the [double] helpers, and the program variables that
    operand expressions may read and write. *)

From Stdlib Require Import ZArith NArith Lia.
From Stdlib Require Import Strings.String Strings.Ascii Strings.Byte.
From Stdlib Require Import Numbers.DecimalString Numbers.HexadecimalString.
From Stdlib Require Import Floats.PrimFloat Floats.SpecFloat Floats.FloatOps.
From Stdlib Require Import Floats.FloatAxioms.
From stdpp Require Import base gmap list strings.

Local Open Scope string_scope.
Local Open Scope Z_scope.

(** ** Machine state *)

(** [memory] is the flat byte memory read by [strcmp]; an address is an index
    into it and address [0] is the null pointer.  [heap] is the free store of
    [operator new double[1]]: a cell holds [None] until it is first written.
    [heap_limit] is the number of cells the free store can hold.  [globals]
    are the program variables of the calling code. *)
Record state := State {
  memory : list byte;
  heap : gmap N (option float);
  heap_limit : nat;
  globals : gmap string Z
}.

Definition set_heap (h : gmap N (option float)) (s : state) : state :=
  State (memory s) h (heap_limit s) (globals s).

Definition set_globals (g : gmap string Z) (s : state) : state :=
  State (memory s) (heap s) (heap_limit s) g.

(** ** Calls of the fatal reporter *)

(** One variadic argument of [V8_Fatal], tagged with its C type. *)
Inductive vararg :=
| ArgText (t : string)     (* a string literal: [#operand] *)
| ArgCStr (p : N)          (* a [const char*] operand, possibly null *)
| ArgInt (i : Z)           (* [int] *)
| ArgUInt32 (u : Z)        (* [uint32_t] *)
| ArgInt64 (i : Z)         (* [int64_t] *)
| ArgIntptr (i : Z)        (* [intptr_t], a [long] on 32-bit AIX *)
| ArgPtr (p : N)           (* [const void*] *)
| ArgDouble (d : float).   (* [double] *)

Record fatal_call := FatalCall {
  fc_file : string;
  fc_line : Z;
  fc_format : string;
  fc_args : list vararg
}.

(** ** The monad of statements *)

Inductive result (A : Type) :=
| Done (a : A)             (* normal return *)
| Fatal (c : fatal_call)   (* [V8_Fatal] was called; it does not return *)
| BadAlloc                 (* [operator new] could not allocate *)
| Undefined.               (* a read outside the memory or of a dead cell *)

Arguments Done {A} a.
Arguments Fatal {A} c.
Arguments BadAlloc {A}.
Arguments Undefined {A}.

Definition M (A : Type) : Type := state -> result A * state.

Definition ret {A : Type} (a : A) : M A := fun s => (Done a, s).

Definition bind {A B : Type} (c : M A) (k : A -> M B) : M B :=
  fun s =>
    match c s with
    | (Done a, s') => k a s'
    | (Fatal f, s') => (Fatal f, s')
    | (BadAlloc, s') => (BadAlloc, s')
    | (Undefined, s') => (Undefined, s')
    end.

Declare Scope stmt_scope.
Delimit Scope stmt_scope with stmt.
Bind Scope stmt_scope with M.

Notation "'do' x <- c ; k" := (bind c (fun x => k))
  (at level 10, x name, c at level 100, k at level 200) : stmt_scope.

Local Open Scope stmt_scope.

(** Short-circuit [||] and [&&] on conditions that may read the state. *)
Definition orM (a b : M bool) : M bool :=
  do x <- a; if x then ret true else b.

Definition andM (a b : M bool) : M bool :=
  do x <- a; if x then b else ret false.

Infix "|||" := orM (at level 50, left associativity) : stmt_scope.
Infix "&&&" := andM (at level 40, left associativity) : stmt_scope.

(** Modelled from the spec: the body of [V8_Fatal] is not part of the header,
    which only declares it.  The reporter takes a file name, a line number, a
    format string and its arguments, and never returns; every file name and
    line number is accepted, the empty name and line zero included. *)
Definition V8_Fatal {A : Type} (file : string) (line : Z) (format : string)
    (args : list vararg) : M A :=
  fun s => (Fatal (FatalCall file line format args), s).

(** The statement [((void) 0)]. *)
Definition nop : M unit := ret tt.

Definition is_fatal {A : Type} (r : result A * state) : bool :=
  match r with
  | (Fatal _, _) => true
  | _ => false
  end.

Definition returns {A : Type} (r : result A * state) : bool :=
  match r with
  | (Done _, _) => true
  | _ => false
  end.

(** The call of the reporter a run ended in, if it ended in one. *)
Definition reported {A : Type} (r : result A * state) : option fatal_call :=
  match r with
  | (Fatal c, _) => Some c
  | _ => None
  end.

(** The line feed of the format strings. *)
Definition LF : string := String (ascii_of_nat 10) EmptyString.

(** ** Helpers for [int] operands *)

Definition CheckEqualsHelper_int (file : string) (line : Z)
    (expected_source : string) (expected : Z)
    (value_source : string) (value : Z) : M unit :=
  if negb (expected =? value) then
    V8_Fatal file line
      ("CHECK_EQ(%s, %s) failed" +:+ LF +:+ "#   Expected: %i" +:+ LF +:+
       "#   Found: %i")
      [ArgText expected_source; ArgText value_source;
       ArgInt expected; ArgInt value]
  else ret tt.

Definition CheckNonEqualsHelper_int (file : string) (line : Z)
    (unexpected_source : string) (unexpected : Z)
    (value_source : string) (value : Z) : M unit :=
  if unexpected =? value then
    V8_Fatal file line
      ("CHECK_NE(%s, %s) failed" +:+ LF +:+ "#   Value: %i")
      [ArgText unexpected_source; ArgText value_source; ArgInt value]
  else ret tt.

(** ** Helpers for [int64_t] operands *)

(** [static_cast<uint32_t>(x)]: reduction modulo [2^32]. *)
Definition to_uint32 (x : Z) : Z := x mod 2 ^ 32.

Definition CheckEqualsHelper_int64 (file : string) (line : Z)
    (expected_source : string) (expected : Z)
    (value_source : string) (value : Z) : M unit :=
  if negb (expected =? value) then
    V8_Fatal file line
      ("CHECK_EQ(%s, %s) failed" +:+ LF +:+ "#" +:+
       "   Expected: 0x%08x%08x" +:+ LF +:+ "#   Found: 0x%08x%08x")
      [ArgText expected_source; ArgText value_source;
       ArgUInt32 (to_uint32 (Z.shiftr expected 32));
       ArgUInt32 (to_uint32 expected);
       ArgUInt32 (to_uint32 (Z.shiftr value 32));
       ArgUInt32 (to_uint32 value)]
  else ret tt.

Definition CheckNonEqualsHelper_int64 (file : string) (line : Z)
    (expected_source : string) (expected : Z)
    (value_source : string) (value : Z) : M unit :=
  if expected =? value then
    V8_Fatal file line
      ("CHECK_EQ(%s, %s) failed" +:+ LF +:+ "#   Expected: %f" +:+ LF +:+
       "#   Found: %f")
      [ArgText expected_source; ArgText value_source;
       ArgInt64 expected; ArgInt64 value]
  else ret tt.


(** ** Helpers for [const char*] operands *)

#[global] Instance byte_eq_decision : EqDecision byte := Byte.byte_eq_dec.

Definition NULL : N := 0%N.

(** The bytes of the memory from address [p] on. *)
Definition bytes_from (m : list byte) (p : N) : list byte :=
  drop (N.to_nat p) m.

(** The byte walk of the C library's [strcmp]: the first position where the
    two strings differ decides, as a difference of unsigned bytes; a common
    NUL ends the walk with [0].  Reading past the end of the memory is
    undefined, hence [None]. *)
Fixpoint strcmp_walk (l1 l2 : list byte) : option Z :=
  match l1, l2 with
  | c1 :: t1, c2 :: t2 =>
      if negb (Byte.eqb c1 c2)
      then Some (Z.of_N (Byte.to_N c1) - Z.of_N (Byte.to_N c2))
      else if Byte.eqb c1 x00 then Some 0
      else strcmp_walk t1 t2
  | _, _ => None
  end.

Definition strcmp (p q : N) : M Z :=
  fun s =>
    match strcmp_walk (bytes_from (memory s) p) (bytes_from (memory s) q) with
    | Some z => (Done z, s)
    | None => (Undefined, s)
    end.

Definition CheckEqualsHelper_cstr (file : string) (line : Z)
    (expected_source : string) (expected : N)
    (value_source : string) (value : N) : M unit :=
  do failed <-
     (ret (expected =? NULL)%N &&& ret (negb (value =? NULL)%N)) |||
     (ret (negb (expected =? NULL)%N) &&& ret (value =? NULL)%N) |||
     (ret (negb (expected =? NULL)%N) &&& ret (negb (value =? NULL)%N) &&&
      (do r <- strcmp expected value; ret (negb (r =? 0))));
  if failed then
    V8_Fatal file line
      ("CHECK_EQ(%s, %s) failed" +:+ LF +:+ "#   Expected: %s" +:+ LF +:+
       "#   Found: %s")
      [ArgText expected_source; ArgText value_source;
       ArgCStr expected; ArgCStr value]
  else ret tt.

Definition CheckNonEqualsHelper_cstr (file : string) (line : Z)
    (expected_source : string) (expected : N)
    (value_source : string) (value : N) : M unit :=
  do failed <-
     ret (expected =? value)%N |||
     (ret (negb (expected =? NULL)%N) &&& ret (negb (value =? NULL)%N) &&&
      (do r <- strcmp expected value; ret (r =? 0)));
  if failed then
    V8_Fatal file line
      ("CHECK_NE(%s, %s) failed" +:+ LF +:+ "#   Value: %s")
      [ArgText expected_source; ArgText value_source; ArgCStr value]
  else ret tt.

(** The content of the NUL-terminated string that starts a list of bytes:
    the bytes before the first NUL; [None] when no NUL follows. *)
Fixpoint until_nul (l : list byte) : option (list byte) :=
  match l with
  | [] => None
  | c :: t => if Byte.eqb c x00 then Some [] else cons c <$> until_nul t
  end.

(** The content a non-null [const char*] refers to. *)
Definition cstr_at (m : list byte) (p : N) : option (list byte) :=
  if (p =? NULL)%N then None else until_nul (bytes_from m p).

(** A well-formed [const char*] operand: null, or the address of a
    NUL-terminated string inside the memory. *)
Definition cstr_ok (m : list byte) (p : N) : bool :=
  (p =? NULL)%N || bool_decide (is_Some (cstr_at m p)).

(** Content equality of two nullable string references, in the words of the
    specification: two null references are equal, a null and a non-null one
    are unequal, two non-null ones are equal when their bytes are the same. *)
Definition content_equal (m : list byte) (p q : N) : bool :=
  if (p =? NULL)%N then (q =? NULL)%N
  else if (q =? NULL)%N then false
  else bool_decide (cstr_at m p = cstr_at m q).

(** ** Helpers for [const void*] operands *)

Definition CheckEqualsHelper_ptr (file : string) (line : Z)
    (expected_source : string) (expected : N)
    (value_source : string) (value : N) : M unit :=
  if negb (expected =? value)%N then
    V8_Fatal file line
      ("CHECK_EQ(%s, %s) failed" +:+ LF +:+ "#   Expected: %p" +:+ LF +:+
       "#   Found: %p")
      [ArgText expected_source; ArgText value_source;
       ArgPtr expected; ArgPtr value]
  else ret tt.

Definition CheckNonEqualsHelper_ptr (file : string) (line : Z)
    (expected_source : string) (expected : N)
    (value_source : string) (value : N) : M unit :=
  if (expected =? value)%N then
    V8_Fatal file line
      ("CHECK_NE(%s, %s) failed" +:+ LF +:+ "#   Value: %p")
      [ArgText expected_source; ArgText value_source; ArgPtr value]
  else ret tt.

(** ** Helpers for [double] operands *)

(** [new double[1]]: a fresh non-null address whose cell is not yet written;
    fails when the free store is full. *)
Definition new_double : M N :=
  fun s =>
    if decide (size (heap s) < heap_limit s)%nat then
      let a := fresh ({[NULL]} ∪ dom (heap s)) in
      (Done a, set_heap (<[a := None]> (heap s)) s)
    else (BadAlloc, s).

(** [*p = d] through a [volatile double*]. *)
Definition store_double (p : N) (d : float) : M unit :=
  fun s =>
    match heap s !! p with
    | Some _ => (Done tt, set_heap (<[p := Some d]> (heap s)) s)
    | None => (Undefined, s)
    end.

(** [*p] through a [volatile double*]. *)
Definition load_double (p : N) : M float :=
  fun s =>
    match heap s !! p with
    | Some (Some d) => (Done d, s)
    | _ => (Undefined, s)
    end.

(** [delete[] p]. *)
Definition delete_double (p : N) : M unit :=
  fun s =>
    match heap s !! p with
    | Some _ => (Done tt, set_heap (delete p (heap s)) s)
    | None => (Undefined, s)
    end.

Definition CheckEqualsHelper_double (file : string) (line : Z)
    (expected_source : string) (expected : float)
    (value_source : string) (value : float) : M unit :=
  do exp <- new_double;
  do _ <- store_double exp expected;
  do val <- new_double;
  do _ <- store_double val value;
  do e <- load_double exp;
  do v <- load_double val;
  do _ <- (if negb (PrimFloat.eqb e v) then
             do e' <- load_double exp;
             do v' <- load_double val;
             V8_Fatal file line
               ("CHECK_EQ(%s, %s) failed" +:+ LF +:+ "#   Expected: %f" +:+
                LF +:+ "#   Found: %f")
               [ArgText expected_source; ArgText value_source;
                ArgDouble e'; ArgDouble v']
           else ret tt);
  do _ <- delete_double exp;
  delete_double val.

Definition CheckNonEqualsHelper_double (file : string) (line : Z)
    (expected_source : string) (expected : float)
    (value_source : string) (value : float) : M unit :=
  do exp <- new_double;
  do _ <- store_double exp expected;
  do val <- new_double;
  do _ <- store_double val value;
  do e <- load_double exp;
  do v <- load_double val;
  do _ <- (if PrimFloat.eqb e v then
             do v' <- load_double val;
             V8_Fatal file line
               ("CHECK_NE(%s, %s) failed" +:+ LF +:+ "#   Value: %f")
               [ArgText expected_source; ArgText value_source; ArgDouble v']
           else ret tt);
  do _ <- delete_double exp;
  delete_double val.

(** The free store can take [n] more cells. *)
Definition heap_room (n : nat) (s : state) : bool :=
  bool_decide (size (heap s) + n <= heap_limit s)%nat.

(** ** The text the reporter formats *)

(** The C library's formatting of the conversions that the format strings of
    this header use: [%s], [%i], [%08x], [%lx], [%p] and [%f].  An argument
    whose type does not fit its conversion has no defined rendering. *)
Inductive conversion := ConvS | ConvI | Conv08X | ConvLX | ConvP | ConvF.

Fixpoint zeros (n : nat) : string :=
  match n with
  | O => EmptyString
  | S k => String "0" (zeros k)
  end.

Definition dec_string (z : Z) : string :=
  DecimalString.NilZero.string_of_int (Z.to_int z).

Definition hex_string (z : Z) : string :=
  HexadecimalString.NilZero.string_of_uint (N.to_hex_uint (Z.to_N z)).

(** Lower-case hexadecimal, padded with zeros on the left to [width]. *)
Definition hex_padded (width : nat) (z : Z) : string :=
  let h := hex_string z in
  zeros (width - String.length h) +:+ h.

Section Printf.
(** [%p] is implementation-defined and [%f] renders a binary64 value in
    decimal; both are left to the C library. *)
Variable render_pointer : N -> string.
Variable render_double : float -> string.
Variable m : list byte.

Definition render (c : conversion) (a : vararg) : option string :=
  match c, a with
  | ConvS, ArgText t => Some t
  | ConvS, ArgCStr p =>
      if (p =? NULL)%N then Some "(null)"
      else string_of_list_byte <$> cstr_at m p
  | ConvI, ArgInt i => Some (dec_string i)
  | Conv08X, ArgUInt32 u => Some (hex_padded 8 u)
  | ConvLX, ArgIntptr i => Some (hex_string (to_uint32 i))
  | ConvP, ArgPtr p => Some (render_pointer p)
  | ConvF, ArgDouble d => Some (render_double d)
  | _, _ => None
  end.

Definition with_arg (c : conversion) (args : list vararg)
    (rest : list vararg -> option string) : option string :=
  match args with
  | [] => None
  | a :: args' =>
      match render c a, rest args' with
      | Some r, Some t => Some (r +:+ t)
      | _, _ => None
      end
  end.

Fixpoint vformat (format : string) (args : list vararg) {struct format}
    : option string :=
  match format with
  | EmptyString => Some EmptyString
  | String "%" (String "s" k) => with_arg ConvS args (vformat k)
  | String "%" (String "i" k) => with_arg ConvI args (vformat k)
  | String "%" (String "p" k) => with_arg ConvP args (vformat k)
  | String "%" (String "f" k) => with_arg ConvF args (vformat k)
  | String "%" (String "l" (String "x" k)) => with_arg ConvLX args (vformat k)
  | String "%" (String "0" (String "8" (String "x" k))) =>
      with_arg Conv08X args (vformat k)
  | String "%" _ => None
  | String c k => String c <$> vformat k args
  end.

(** The formatted text of a call of the reporter. *)
Definition message (c : fatal_call) : option string :=
  vformat (fc_format c) (fc_args c).
End Printf.

(** ** The macro layer *)

(** The preprocessor symbols the header tests with [#ifdef]. *)
Record build_config := BuildConfig {
  DEBUG : bool;
  ENABLE_EXTRA_CHECKS : bool;
  ENABLE_EXTRA_PPCCHECKS : bool
}.

(** An operand of a macro: its source text, which [#operand] turns into a
    string literal, and its evaluation, which may change the state. *)
Record expr (T : Type) := Expr {
  text : string;
  eval : M T
}.

Arguments Expr {T} text eval.
Arguments text {T} e.
Arguments eval {T} e.

(** An operand without side effects. *)
Definition lit {T : Type} (source : string) (v : T) : expr T :=
  Expr source (ret v).

Definition FATAL (cfg : build_config) (file : string) (line : Z)
    (msg : string) : M unit :=
  if DEBUG cfg then V8_Fatal file line "%s" [ArgText msg]
  else V8_Fatal "" 0 "%s" [ArgText msg].

Definition UNIMPLEMENTED (cfg : build_config) (file : string) (line : Z)
    : M unit :=
  if DEBUG cfg then V8_Fatal file line "unimplemented code" []
  else V8_Fatal "" 0 "unimplemented code" [].

Definition UNREACHABLE (cfg : build_config) (file : string) (line : Z)
    : M unit :=
  if DEBUG cfg then V8_Fatal file line "unreachable code" []
  else nop.

Definition CHECK (file : string) (line : Z) (condition : expr bool) : M unit :=
  do c <- eval condition;
  if negb c then
    V8_Fatal file line "CHECK(%s) failed" [ArgText (text condition)]
  else ret tt.

(** The operand kinds that select an overload of the helpers. *)
Inductive kind := KInt | KInt64 | KCStr | KPtr | KDouble.

Definition ctype (k : kind) : Type :=
  match k with
  | KInt | KInt64 => Z
  | KCStr | KPtr => N
  | KDouble => float
  end.

Definition CheckEqualsHelper (k : kind)
    : string -> Z -> string -> ctype k -> string -> ctype k -> M unit :=
  match k with
  | KInt => CheckEqualsHelper_int
  | KInt64 => CheckEqualsHelper_int64
  | KCStr => CheckEqualsHelper_cstr
  | KPtr => CheckEqualsHelper_ptr
  | KDouble => CheckEqualsHelper_double
  end.

Definition CheckNonEqualsHelper (k : kind)
    : string -> Z -> string -> ctype k -> string -> ctype k -> M unit :=
  match k with
  | KInt => CheckNonEqualsHelper_int
  | KInt64 => CheckNonEqualsHelper_int64
  | KCStr => CheckNonEqualsHelper_cstr
  | KPtr => CheckNonEqualsHelper_ptr
  | KDouble => CheckNonEqualsHelper_double
  end.

Definition CHECK_EQ (k : kind) (file : string) (line : Z)
    (expected value : expr (ctype k)) : M unit :=
  do e <- eval expected;
  do v <- eval value;
  CheckEqualsHelper k file line (text expected) e (text value) v.

Definition CHECK_NE (k : kind) (file : string) (line : Z)
    (unexpected value : expr (ctype k)) : M unit :=
  do u <- eval unexpected;
  do v <- eval value;
  CheckNonEqualsHelper k file line (text unexpected) u (text value) v.

(** The expression [(a) op (b)] on [int] operands, evaluated left to
    right. *)
Definition relational (op_text : string) (op : Z -> Z -> bool)
    (a b : expr Z) : expr bool :=
  Expr ("(" +:+ text a +:+ ") " +:+ op_text +:+ " (" +:+ text b +:+ ")")
       (do x <- eval a; do y <- eval b; ret (op x y)).

Definition CHECK_GT (file : string) (line : Z) (a b : expr Z) : M unit :=
  CHECK file line (relational ">" Z.gtb a b).

Definition CHECK_GE (file : string) (line : Z) (a b : expr Z) : M unit :=
  CHECK file line (relational ">=" Z.geb a b).

Definition CHECK_LT (file : string) (line : Z) (a b : expr Z) : M unit :=
  CHECK file line (relational "<" Z.ltb a b).

Definition CHECK_LE (file : string) (line : Z) (a b : expr Z) : M unit :=
  CHECK file line (relational "<=" Z.leb a b).

(** [(expr)] as a statement: the operand is evaluated, its value dropped. *)
Definition evaluate {T : Type} (e : expr T) : M unit :=
  do _ <- eval e; ret tt.

Definition ASSERT_RESULT (cfg : build_config) (file : string) (line : Z)
    (e : expr bool) : M unit :=
  if DEBUG cfg then CHECK file line e else evaluate e.

Definition ASSERT (cfg : build_config) (file : string) (line : Z)
    (condition : expr bool) : M unit :=
  if DEBUG cfg then CHECK file line condition else nop.

Definition ASSERT_EQ (cfg : build_config) (k : kind) (file : string)
    (line : Z) (v1 v2 : expr (ctype k)) : M unit :=
  if DEBUG cfg then CHECK_EQ k file line v1 v2 else nop.

Definition ASSERT_NE (cfg : build_config) (k : kind) (file : string)
    (line : Z) (v1 v2 : expr (ctype k)) : M unit :=
  if DEBUG cfg then CHECK_NE k file line v1 v2 else nop.

Definition ASSERT_GE (cfg : build_config) (file : string) (line : Z)
    (v1 v2 : expr Z) : M unit :=
  if DEBUG cfg then CHECK_GE file line v1 v2 else nop.

Definition ASSERT_LT (cfg : build_config) (file : string) (line : Z)
    (v1 v2 : expr Z) : M unit :=
  if DEBUG cfg then CHECK_LT file line v1 v2 else nop.

Definition ASSERT_LE (cfg : build_config) (file : string) (line : Z)
    (v1 v2 : expr Z) : M unit :=
  if DEBUG cfg then CHECK_LE file line v1 v2 else nop.

Definition EXTRA_CHECK (cfg : build_config) (file : string) (line : Z)
    (condition : expr bool) : M unit :=
  if ENABLE_EXTRA_CHECKS cfg then CHECK file line condition else nop.

Definition PPCPORT_CHECK (cfg : build_config) (file : string) (line : Z)
    (condition : expr bool) : M unit :=
  if ENABLE_EXTRA_PPCCHECKS cfg then CHECK file line condition else nop.

Definition PPCPORT_UNIMPLEMENTED (cfg : build_config) (file : string)
    (line : Z) : M unit :=
  if ENABLE_EXTRA_PPCCHECKS cfg then UNIMPLEMENTED cfg file line else nop.

Definition PPCPORT_UNSAFE_IMPLEMENTATION (cfg : build_config) : M unit :=
  if ENABLE_EXTRA_PPCCHECKS cfg then nop else nop.




(** ** Reference relations for the statements of the properties *)

(** Equality of two operands of a kind, as the specification words it:
    integers by value, strings by content, pointers by address, doubles by
    the comparison of their binary64 values. *)
Definition kind_eqb (k : kind) (m : list byte) : ctype k -> ctype k -> bool :=
  match k with
  | KInt => Z.eqb
  | KInt64 => Z.eqb
  | KCStr => content_equal m
  | KPtr => N.eqb
  | KDouble => PrimFloat.eqb
  end.

(** What a helper of a kind relies on: string operands are well formed, and
    the free store has room for the two cells of the [double] helpers. *)
Definition helper_pre (k : kind) (s : state) : ctype k -> ctype k -> bool :=
  match k with
  | KCStr => fun e v => cstr_ok (memory s) e && cstr_ok (memory s) v
  | KDouble => fun _ _ => heap_room 2 s
  | _ => fun _ _ => true
  end.


(** ** Example states *)

(** Three strings after the byte at the null address: "abc" at address 1,
    a second "abc" at address 5 and "abd" at address 9. *)
Definition example_memory : list byte :=
  [x00; x61; x62; x63; x00; x61; x62; x63; x00; x61; x62; x64; x00].

(** A state with that memory, room for two cells in the free store and a
    program variable [counter]. *)
Definition example_state : state :=
  State example_memory ∅ 2 {["counter" := 4]}.


(** The operand [++counter == 5]: it increments the program variable
    [counter] and compares the new value with [5]. *)
Definition increment_counter_is_5 : expr bool :=
  Expr "++counter == 5"
       (fun s =>
          match globals s !! "counter" with
          | Some c => (Done (c + 1 =? 5), set_globals (<["counter" := c + 1]> (globals s)) s)
          | None => (Undefined, s)
          end).


(** ** [ASSERT_NOT_NULL] and reference functions for further properties *)

(** The value of the null pointer constant [NULL] as an operand of a kind:
    the null address for the two pointer kinds, zero for the numbers. *)
Definition null_constant (k : kind) : ctype k :=
  match k with
  | KInt | KInt64 => 0
  | KCStr | KPtr => NULL
  | KDouble => 0%float
  end.

(** [ASSERT_NOT_NULL(p)] is [ASSERT_NE(NULL, p)]; the pointer type of [p]
    selects the overload, [KCStr] or [KPtr].  The first source text of the
    helper is what the preprocessor leaves of [NULL], whose definition is the
    C library's: [null_text]. *)
Definition ASSERT_NOT_NULL (cfg : build_config) (k : kind)
    (null_text file : string) (line : Z) (p : expr (ctype k)) : M unit :=
  ASSERT_NE cfg k file line (lit null_text (null_constant k)) p.

(** The [int64_t] value whose two's complement representation has the high
    32-bit word [hi] and the low 32-bit word [lo]. *)
Definition int64_of_words (hi lo : Z) : Z :=
  let u := hi * 2 ^ 32 + lo in
  if u <? 2 ^ 63 then u else u - 2 ^ 64.

(** A state whose free store has room for one cell only. *)
Definition one_cell_state : state :=
  State example_memory ∅ 1 ∅.

(** * Properties *)

(** ** The byte walk of [strcmp] *)

Lemma byte_eqb_true (c d : byte) : Byte.eqb c d = true <-> c = d.
Proof.
  split; [apply Byte.byte_dec_bl | apply Byte.byte_dec_lb].
Qed.

Lemma byte_eqb_false (c d : byte) : Byte.eqb c d = false <-> c <> d.
Proof.
  rewrite <- byte_eqb_true. destruct (Byte.eqb c d); split; congruence.
Qed.

Lemma byte_to_N_inj (c d : byte) : Byte.to_N c = Byte.to_N d -> c = d.
Proof.
  intros H. pose proof (Byte.of_to_N c) as Hc. rewrite H, Byte.of_to_N in Hc.
  congruence.
Qed.

(** On two NUL-terminated strings the walk ends inside the memory, and its
    result is zero exactly when the contents are the same. *)
Lemma strcmp_walk_spec (l1 : list byte) :
  forall (l2 b1 b2 : list byte),
    until_nul l1 = Some b1 -> until_nul l2 = Some b2 ->
    exists z, strcmp_walk l1 l2 = Some z /\ (z = 0 <-> b1 = b2).
Proof.
  induction l1 as [|c1 t1 IH]; intros l2 b1 b2 H1 H2; [discriminate|].
  destruct l2 as [|c2 t2]; [discriminate|].
  simpl in H1, H2. simpl.
  destruct (Byte.eqb c1 c2) eqn:E12; simpl.
  - apply byte_eqb_true in E12. subst c2.
    destruct (Byte.eqb c1 x00) eqn:E0.
    + exists 0. split; [reflexivity|]. split; congruence.
    + destruct (until_nul t1) as [r1|] eqn:U1; [|discriminate].
      destruct (until_nul t2) as [r2|] eqn:U2; [|discriminate].
      simpl in H1, H2. injection H1 as <-. injection H2 as <-.
      destruct (IH t2 r1 r2 eq_refl U2) as (z & Hz & Hiff).
      exists z. split; [exact Hz|]. rewrite Hiff. split; congruence.
  - apply byte_eqb_false in E12.
    eexists. split; [reflexivity|]. split.
    + intros Hz. exfalso. apply E12, byte_to_N_inj. lia.
    + intros Hb. exfalso. apply E12.
      destruct (Byte.eqb c1 x00) eqn:E1, (Byte.eqb c2 x00) eqn:E2.
      * apply byte_eqb_true in E1, E2. congruence.
      * destruct (until_nul t2); simpl in H2; congruence.
      * destruct (until_nul t1); simpl in H1; congruence.
      * destruct (until_nul t1), (until_nul t2); simpl in H1, H2; congruence.
Qed.

(** ** The string helpers *)

Lemma cstr_ok_nonnull (m : list byte) (p : N) :
  cstr_ok m p = true -> (p =? NULL)%N = false ->
  exists b, until_nul (bytes_from m p) = Some b.
Proof.
  unfold cstr_ok, cstr_at. intros Hok Hp. rewrite Hp in Hok. simpl in Hok.
  apply bool_decide_eq_true in Hok. destruct Hok as [b Hb]. eauto.
Qed.

(** On two well-formed non-null operands [strcmp] returns, leaves the state
    alone, and yields zero exactly when the contents are equal. *)
Lemma strcmp_run (s : state) (e v : N) :
  cstr_ok (memory s) e = true -> cstr_ok (memory s) v = true ->
  (e =? NULL)%N = false -> (v =? NULL)%N = false ->
  exists z, strcmp e v s = (Done z, s)
            /\ (z =? 0) = content_equal (memory s) e v.
Proof.
  intros He Hv Hen Hvn.
  destruct (cstr_ok_nonnull _ _ He Hen) as [b1 H1].
  destruct (cstr_ok_nonnull _ _ Hv Hvn) as [b2 H2].
  destruct (strcmp_walk_spec _ _ _ _ H1 H2) as (z & Hz & Hiff).
  exists z. unfold strcmp. rewrite Hz. split; [reflexivity|].
  unfold content_equal, cstr_at. rewrite Hen, Hvn, H1, H2.
  destruct (z =? 0) eqn:E.
  - apply Z.eqb_eq, Hiff in E. subst b2. symmetry.
    apply bool_decide_eq_true. reflexivity.
  - symmetry. apply bool_decide_eq_false. intros Hb.
    apply Z.eqb_neq in E. apply E, Hiff. congruence.
Qed.

Lemma CheckEqualsHelper_cstr_run (s : state) (file : string) (line : Z)
    (es vs : string) (e v : N) :
  cstr_ok (memory s) e = true -> cstr_ok (memory s) v = true ->
  CheckEqualsHelper_cstr file line es e vs v s =
    if content_equal (memory s) e v then (Done tt, s)
    else (Fatal (FatalCall file line
                   ("CHECK_EQ(%s, %s) failed" +:+ LF +:+ "#   Expected: %s"
                    +:+ LF +:+ "#   Found: %s")
                   [ArgText es; ArgText vs; ArgCStr e; ArgCStr v]), s).
Proof.
  intros He Hv.
  unfold CheckEqualsHelper_cstr, orM, andM, bind, ret, V8_Fatal.
  destruct (e =? NULL)%N eqn:Hen, (v =? NULL)%N eqn:Hvn; simpl;
    try (unfold content_equal; rewrite Hen, ?Hvn; reflexivity).
  destruct (strcmp_run s e v He Hv Hen Hvn) as (z & Hrun & Hz).
  rewrite Hrun, <- Hz. destruct (z =? 0); reflexivity.
Qed.

Lemma strcmp_same (s : state) (p : N) :
  cstr_ok (memory s) p = true -> (p =? NULL)%N = false ->
  strcmp p p s = (Done 0, s).
Proof.
  intros Hp Hn. destruct (strcmp_run s p p Hp Hp Hn Hn) as (z & Hrun & Hz).
  rewrite Hrun. unfold content_equal in Hz. rewrite Hn in Hz.
  rewrite bool_decide_eq_true_2 in Hz by reflexivity.
  apply Z.eqb_eq in Hz. subst z. reflexivity.
Qed.

Lemma content_equal_same (m : list byte) (p : N) : content_equal m p p = true.
Proof.
  unfold content_equal. destruct (p =? NULL)%N; [reflexivity|].
  apply bool_decide_eq_true. reflexivity.
Qed.

Lemma CheckNonEqualsHelper_cstr_run (s : state) (file : string) (line : Z)
    (es vs : string) (e v : N) :
  cstr_ok (memory s) e = true -> cstr_ok (memory s) v = true ->
  CheckNonEqualsHelper_cstr file line es e vs v s =
    if content_equal (memory s) e v
    then (Fatal (FatalCall file line
                   ("CHECK_NE(%s, %s) failed" +:+ LF +:+ "#   Value: %s")
                   [ArgText es; ArgText vs; ArgCStr v]), s)
    else (Done tt, s).
Proof.
  intros He Hv.
  unfold CheckNonEqualsHelper_cstr, orM, andM, bind, ret, V8_Fatal.
  destruct (e =? v)%N eqn:Hev; simpl.
  - apply N.eqb_eq in Hev. subst v. rewrite content_equal_same. reflexivity.
  - destruct (e =? NULL)%N eqn:Hen, (v =? NULL)%N eqn:Hvn; simpl;
      try (unfold content_equal; rewrite Hen, ?Hvn; reflexivity).
    + apply N.eqb_eq in Hen, Hvn. apply N.eqb_neq in Hev. congruence.
    + destruct (strcmp_run s e v He Hv Hen Hvn) as (z & Hrun & Hz).
      rewrite Hrun, <- Hz. destruct (z =? 0); reflexivity.
Qed.

(** ** The monad and the free store *)

Lemma bind_done {A B : Type} (c : M A) (k : A -> M B) (s s' : state) (a : A) :
  c s = (Done a, s') -> bind c k s = k a s'.
Proof. intros H. unfold bind. rewrite H. reflexivity. Qed.

Lemma set_heap_same (s : state) : set_heap (heap s) s = s.
Proof. destruct s. reflexivity. Qed.

Lemma new_double_run (s : state) :
  heap_room 1 s = true ->
  exists a, new_double s = (Done a, set_heap (<[a := None]> (heap s)) s)
            /\ heap s !! a = None /\ a <> NULL.
Proof.
  intros Hroom. apply bool_decide_eq_true in Hroom.
  exists (fresh ({[NULL]} ∪ dom (heap s))). unfold new_double.
  destruct (decide (size (heap s) < heap_limit s)%nat) as [_|Hn]; [|lia].
  pose proof (is_fresh ({[NULL]} ∪ dom (heap s))) as Hfresh.
  split; [reflexivity|]. split.
  - apply not_elem_of_dom. set_solver.
  - set_solver.
Qed.

Lemma new_double_full (s : state) :
  heap_room 1 s = false -> new_double s = (BadAlloc, s).
Proof.
  intros Hroom. apply bool_decide_eq_false in Hroom. unfold new_double.
  destruct (decide (size (heap s) < heap_limit s)%nat) as [Hlt|_]; [lia|].
  reflexivity.
Qed.

(** Two allocations, each followed by the first write of its cell. *)
Lemma two_cells_run {A : Type} (s : state) (e v : float) (K : N -> N -> M A) :
  heap_room 2 s = true ->
  exists a b,
    a <> b /\ heap s !! a = None /\ heap s !! b = None
    /\ (do exp <- new_double;
        do _ <- store_double exp e;
        do val <- new_double;
        do _ <- store_double val v;
        K exp val) s
       = K a b (set_heap (<[b := Some v]> (<[a := Some e]> (heap s))) s).
Proof.
  intros Hroom. apply bool_decide_eq_true in Hroom.
  destruct (new_double_run s) as (a & Ha & Hfa & _).
  { apply bool_decide_eq_true. lia. }
  set (s1 := set_heap (<[a := Some e]> (heap s)) s).
  assert (Hs1 : store_double a e (set_heap (<[a := None]> (heap s)) s)
                = (Done tt, s1)).
  { unfold store_double. simpl. rewrite lookup_insert_eq.
    unfold s1. rewrite insert_insert_eq. reflexivity. }
  destruct (new_double_run s1) as (b & Hb & Hfb & _).
  { apply bool_decide_eq_true. unfold s1. simpl.
    rewrite map_size_insert_None by exact Hfa. lia. }
  assert (Hab : a <> b).
  { intros ->. unfold s1 in Hfb. simpl in Hfb.
    rewrite lookup_insert_eq in Hfb. discriminate. }
  exists a, b. split; [exact Hab|]. split; [exact Hfa|]. split.
  - unfold s1 in Hfb. simpl in Hfb.
    rewrite lookup_insert_ne in Hfb by exact Hab. exact Hfb.
  - rewrite (bind_done _ _ _ _ _ Ha). cbv beta.
    rewrite (bind_done _ _ _ _ _ Hs1).
    rewrite (bind_done _ _ _ _ _ Hb). cbv beta.
    unfold bind at 1. unfold store_double at 1. simpl.
    rewrite lookup_insert_eq, insert_insert_eq. reflexivity.
Qed.

Section TwoCells.
Variables (h : gmap N (option float)) (a b : N) (e v : float).
Variable s : state.
Hypothesis Hab : a <> b.
Hypothesis Hfa : h !! a = None.
Hypothesis Hfb : h !! b = None.

Let s2 : state := set_heap (<[b := Some v]> (<[a := Some e]> h)) s.

Lemma load_first_cell : load_double a s2 = (Done e, s2).
Proof.
  unfold load_double, s2. simpl.
  rewrite lookup_insert_ne by congruence. rewrite lookup_insert_eq.
  reflexivity.
Qed.

Lemma load_second_cell : load_double b s2 = (Done v, s2).
Proof.
  unfold load_double, s2. simpl. rewrite lookup_insert_eq. reflexivity.
Qed.

(** Freeing both cells gives back the free store as it was. *)
Lemma delete_both_cells :
  (do _ <- delete_double a; delete_double b) s2 = (Done tt, set_heap h s).
Proof.
  unfold bind, delete_double, s2. simpl.
  rewrite lookup_insert_ne by congruence. rewrite lookup_insert_eq. simpl.
  rewrite delete_insert_ne by congruence.
  rewrite delete_insert_id by exact Hfa.
  rewrite lookup_insert_eq.
  rewrite delete_insert_id by exact Hfb. reflexivity.
Qed.
End TwoCells.

(** ** The [double] helpers *)

Lemma CheckEqualsHelper_double_run (s : state) (file : string) (line : Z)
    (es vs : string) (e v : float) :
  heap_room 2 s = true ->
  if PrimFloat.eqb e v
  then CheckEqualsHelper_double file line es e vs v s = (Done tt, s)
  else is_fatal (CheckEqualsHelper_double file line es e vs v s) = true.
Proof.
  intros Hroom. unfold CheckEqualsHelper_double.
  match goal with
  | |- context [bind new_double ?k s] =>
      destruct (two_cells_run s e v
                  (fun exp val =>
                     do e0 <- load_double exp;
                     do v0 <- load_double val;
                     do _ <- (if negb (PrimFloat.eqb e0 v0) then
                                do e' <- load_double exp;
                                do v' <- load_double val;
                                V8_Fatal file line
                                  ("CHECK_EQ(%s, %s) failed" +:+ LF +:+
                                   "#   Expected: %f" +:+ LF +:+
                                   "#   Found: %f")
                                  [ArgText es; ArgText vs;
                                   ArgDouble e'; ArgDouble v']
                              else ret tt);
                     do _ <- delete_double exp;
                     delete_double val) Hroom)
        as (a & b & Hab & Hfa & Hfb & Hrun)
  end.
  rewrite Hrun. clear Hrun.
  rewrite (bind_done _ _ _ _ _ (load_first_cell _ a b e v s Hab)).
  rewrite (bind_done _ _ _ _ _ (load_second_cell _ a b e v s)).
  destruct (PrimFloat.eqb e v); simpl.
  - unfold bind at 1. unfold ret at 1.
    rewrite (delete_both_cells _ a b e v s Hab Hfa Hfb).
    rewrite set_heap_same. reflexivity.
  - unfold bind at 1. unfold bind at 1.
    rewrite (load_first_cell _ a b e v s Hab).
    unfold bind at 1. rewrite (load_second_cell _ a b e v s).
    reflexivity.
Qed.

Lemma CheckNonEqualsHelper_double_run (s : state) (file : string) (line : Z)
    (es vs : string) (e v : float) :
  heap_room 2 s = true ->
  if PrimFloat.eqb e v
  then is_fatal (CheckNonEqualsHelper_double file line es e vs v s) = true
  else CheckNonEqualsHelper_double file line es e vs v s = (Done tt, s).
Proof.
  intros Hroom. unfold CheckNonEqualsHelper_double.
  match goal with
  | |- context [bind new_double ?k s] =>
      destruct (two_cells_run s e v
                  (fun exp val =>
                     do e0 <- load_double exp;
                     do v0 <- load_double val;
                     do _ <- (if PrimFloat.eqb e0 v0 then
                                do v' <- load_double val;
                                V8_Fatal file line
                                  ("CHECK_NE(%s, %s) failed" +:+ LF +:+
                                   "#   Value: %f")
                                  [ArgText es; ArgText vs; ArgDouble v']
                              else ret tt);
                     do _ <- delete_double exp;
                     delete_double val) Hroom)
        as (a & b & Hab & Hfa & Hfb & Hrun)
  end.
  rewrite Hrun. clear Hrun.
  rewrite (bind_done _ _ _ _ _ (load_first_cell _ a b e v s Hab)).
  rewrite (bind_done _ _ _ _ _ (load_second_cell _ a b e v s)).
  destruct (PrimFloat.eqb e v); simpl.
  - unfold bind at 1. unfold bind at 1.
    rewrite (load_second_cell _ a b e v s). reflexivity.
  - unfold bind at 1. unfold ret at 1.
    rewrite (delete_both_cells _ a b e v s Hab Hfa Hfb).
    rewrite set_heap_same. reflexivity.
Qed.


(** ** Outcome of the helpers, kind by kind *)

Lemma is_fatal_returns {A : Type} (r : result A * state) :
  is_fatal r = true -> returns r = false.
Proof. destruct r as [[a|c| |] s]; simpl; congruence. Qed.

(** With well-formed operands, the equals-mode helper of every kind returns
    with the state as it was when the operands are equal, and ends in
    [V8_Fatal] when they are not. *)
Lemma CheckEqualsHelper_outcome (k : kind) (s : state) (file : string)
    (line : Z) (es vs : string) (e v : ctype k) :
  helper_pre k s e v = true ->
  if kind_eqb k (memory s) e v
  then CheckEqualsHelper k file line es e vs v s = (Done tt, s)
  else is_fatal (CheckEqualsHelper k file line es e vs v s) = true.
Proof.
  destruct k; simpl in *; intros Hpre.
  - unfold CheckEqualsHelper_int. destruct (e =? v); reflexivity.
  - unfold CheckEqualsHelper_int64. destruct (e =? v); reflexivity.
  - apply andb_true_iff in Hpre. destruct Hpre as [He Hv].
    rewrite (CheckEqualsHelper_cstr_run s file line es vs e v He Hv).
    destruct (content_equal (memory s) e v); reflexivity.
  - unfold CheckEqualsHelper_ptr. destruct (e =? v)%N; reflexivity.
  - apply CheckEqualsHelper_double_run. exact Hpre.
Qed.

(** The not-equals-mode helper of every kind does the opposite. *)
Lemma CheckNonEqualsHelper_outcome (k : kind) (s : state) (file : string)
    (line : Z) (es vs : string) (e v : ctype k) :
  helper_pre k s e v = true ->
  if kind_eqb k (memory s) e v
  then is_fatal (CheckNonEqualsHelper k file line es e vs v s) = true
  else CheckNonEqualsHelper k file line es e vs v s = (Done tt, s).
Proof.
  destruct k; simpl in *; intros Hpre.
  - unfold CheckNonEqualsHelper_int. destruct (e =? v); reflexivity.
  - unfold CheckNonEqualsHelper_int64. destruct (e =? v); reflexivity.
  - apply andb_true_iff in Hpre. destruct Hpre as [He Hv].
    rewrite (CheckNonEqualsHelper_cstr_run s file line es vs e v He Hv).
    destruct (content_equal (memory s) e v); reflexivity.
  - unfold CheckNonEqualsHelper_ptr. destruct (e =? v)%N; reflexivity.
  - apply CheckNonEqualsHelper_double_run. exact Hpre.
Qed.


(** ** Strings: equality is content equality *)

(** C1: for the [const char*] helpers, with any file, line and source texts
    and any two well-formed nullable string references, the equals-mode
    helper returns when both references are null, ends in [V8_Fatal] when
    exactly one is null, and for two non-null references ends in [V8_Fatal]
    exactly when the byte contents differ; the not-equals-mode helper ends in
    [V8_Fatal] exactly when the two references are content-equal. *)
Theorem cstr_helpers_compare_contents (s : state) (file : string) (line : Z)
    (es vs : string) (e v : N)
    (He : cstr_ok (memory s) e = true) (Hv : cstr_ok (memory s) v = true) :
  (e = NULL -> v = NULL ->
   CheckEqualsHelper_cstr file line es e vs v s = (Done tt, s))
  /\ ((e = NULL /\ v <> NULL) \/ (e <> NULL /\ v = NULL) ->
      is_fatal (CheckEqualsHelper_cstr file line es e vs v s) = true)
  /\ (e <> NULL -> v <> NULL ->
      (is_fatal (CheckEqualsHelper_cstr file line es e vs v s) = true
       <-> cstr_at (memory s) e <> cstr_at (memory s) v))
  /\ (is_fatal (CheckNonEqualsHelper_cstr file line es e vs v s) = true
      <-> content_equal (memory s) e v = true)
  /\ (returns (CheckNonEqualsHelper_cstr file line es e vs v s) = true
      <-> content_equal (memory s) e v = false).
Proof.
  rewrite (CheckEqualsHelper_cstr_run s file line es vs e v He Hv).
  rewrite (CheckNonEqualsHelper_cstr_run s file line es vs e v He Hv).
  split; [|split; [|split; [|split]]].
  - intros -> ->. reflexivity.
  - intros [[-> Hn]|[Hn ->]]; unfold content_equal.
    + apply N.eqb_neq in Hn. simpl. rewrite Hn. reflexivity.
    + apply N.eqb_neq in Hn. rewrite Hn. reflexivity.
  - intros Hen Hvn. apply N.eqb_neq in Hen, Hvn.
    unfold content_equal. rewrite Hen, Hvn.
    destruct (bool_decide_reflect
                (cstr_at (memory s) e = cstr_at (memory s) v)) as [Heq|Hne];
      simpl; split; congruence.
  - destruct (content_equal (memory s) e v); simpl; split; congruence.
  - destruct (content_equal (memory s) e v); simpl; split; congruence.
Qed.

(** "abc" at address 1 against "abd" at address 9: the equals-mode helper
    ends in [V8_Fatal], the not-equals-mode helper returns. *)
Lemma cstr_helpers_compare_contents_example :
  cstr_ok (memory example_state) 1 = true
  /\ cstr_ok (memory example_state) 9 = true
  /\ is_fatal (CheckEqualsHelper_cstr "t.cc" 7 "a" 1 "b" 9 example_state)
     = true
  /\ returns (CheckNonEqualsHelper_cstr "t.cc" 7 "a" 1 "b" 9 example_state)
     = true.
Proof.
  pose proof (cstr_helpers_compare_contents example_state "t.cc" 7 "a" "b"
                1%N 9%N eq_refl eq_refl) as (_ & _ & Hne & _ & Hret).
  split; [reflexivity|]. split; [reflexivity|]. split.
  - apply Hne; [discriminate | discriminate | vm_compute; discriminate].
  - apply Hret. reflexivity.
Defined.

(** The scenarios of the specification: "abc" against "abc" at another
    address, "abc" against "abd", null against "abc", null against null. *)
Example cstr_scenarios :
  returns (CheckEqualsHelper_cstr "t.cc" 7 "a" 1 "b" 5 example_state) = true
  /\ is_fatal (CheckEqualsHelper_cstr "t.cc" 7 "a" 1 "b" 9 example_state)
     = true
  /\ is_fatal (CheckEqualsHelper_cstr "t.cc" 7 "a" NULL "b" 1 example_state)
     = true
  /\ returns (CheckEqualsHelper_cstr "t.cc" 7 "a" NULL "b" NULL example_state)
     = true.
Proof. repeat split; reflexivity. Qed.

(** ** Equals mode and not-equals mode are complementary *)

(** C10: for [int] operands and for well-formed [const char*] operands, with
    any file, line and source texts, the equals-mode helper ends in
    [V8_Fatal] if and only if the not-equals-mode helper does not, and each
    of the two returns exactly when the other one ends in [V8_Fatal]. *)
Theorem int_and_cstr_helpers_complementary (s : state) (file : string)
    (line : Z) (es vs : string) (ei vi : Z) (ep vp : N)
    (He : cstr_ok (memory s) ep = true) (Hv : cstr_ok (memory s) vp = true) :
  (is_fatal (CheckEqualsHelper_int file line es ei vs vi s) = true
   <-> is_fatal (CheckNonEqualsHelper_int file line es ei vs vi s) = false)
  /\ returns (CheckEqualsHelper_int file line es ei vs vi s)
     = is_fatal (CheckNonEqualsHelper_int file line es ei vs vi s)
  /\ returns (CheckNonEqualsHelper_int file line es ei vs vi s)
     = is_fatal (CheckEqualsHelper_int file line es ei vs vi s)
  /\ (is_fatal (CheckEqualsHelper_cstr file line es ep vs vp s) = true
      <-> is_fatal (CheckNonEqualsHelper_cstr file line es ep vs vp s)
          = false)
  /\ returns (CheckEqualsHelper_cstr file line es ep vs vp s)
     = is_fatal (CheckNonEqualsHelper_cstr file line es ep vs vp s)
  /\ returns (CheckNonEqualsHelper_cstr file line es ep vs vp s)
     = is_fatal (CheckEqualsHelper_cstr file line es ep vs vp s).
Proof.
  rewrite (CheckEqualsHelper_cstr_run s file line es vs ep vp He Hv).
  rewrite (CheckNonEqualsHelper_cstr_run s file line es vs ep vp He Hv).
  unfold CheckEqualsHelper_int, CheckNonEqualsHelper_int.
  destruct (ei =? vi), (content_equal (memory s) ep vp); simpl;
    repeat split; congruence.
Qed.

(** Two copies of "abc" at different addresses, and the integers 3 and 4. *)
Lemma int_and_cstr_helpers_complementary_example :
  cstr_ok (memory example_state) 1 = true
  /\ cstr_ok (memory example_state) 5 = true
  /\ returns (CheckEqualsHelper_int "t.cc" 7 "a" 3 "b" 4 example_state)
     = is_fatal (CheckNonEqualsHelper_int "t.cc" 7 "a" 3 "b" 4 example_state)
  /\ returns (CheckEqualsHelper_cstr "t.cc" 7 "a" 1 "b" 5 example_state)
     = is_fatal (CheckNonEqualsHelper_cstr "t.cc" 7 "a" 1 "b" 5 example_state).
Proof.
  pose proof (int_and_cstr_helpers_complementary example_state "t.cc" 7
                "a" "b" 3 4 1%N 5%N eq_refl eq_refl)
    as (_ & Hi & _ & _ & Hs & _).
  split; [reflexivity|]. split; [reflexivity|]. split; [exact Hi | exact Hs].
Defined.

(** ** Pointers: equality is identity *)

(** C8: for the [const void*] helpers equality is decided by the addresses
    alone: for every pair of pointers the equals-mode helper ends in
    [V8_Fatal] if and only if the addresses differ (and the not-equals-mode
    helper if and only if they are the same), whatever the memory holds; two
    distinct objects with the same contents at different addresses compare
    unequal. *)
Theorem ptr_helpers_compare_addresses :
  (forall (s : state) (file : string) (line : Z) (es vs : string) (e v : N),
      (is_fatal (CheckEqualsHelper_ptr file line es e vs v s) = true
       <-> e <> v)
      /\ (returns (CheckEqualsHelper_ptr file line es e vs v s) = true
          <-> e = v)
      /\ (is_fatal (CheckNonEqualsHelper_ptr file line es e vs v s) = true
          <-> e = v))
  /\ (forall (s s' : state) (file : string) (line : Z) (es vs : string)
             (e v : N),
         fst (CheckEqualsHelper_ptr file line es e vs v s)
         = fst (CheckEqualsHelper_ptr file line es e vs v s'))
  /\ (cstr_at example_memory 1 = cstr_at example_memory 5
      /\ is_fatal (CheckEqualsHelper_ptr "t.cc" 7 "a" 1 "b" 5 example_state)
         = true).
Proof.
  split; [|split].
  - intros s file line es vs e v.
    unfold CheckEqualsHelper_ptr, CheckNonEqualsHelper_ptr.
    destruct (N.eqb_spec e v) as [Heq|Hne]; simpl;
      repeat split; intros; congruence.
  - intros s s' file line es vs e v. unfold CheckEqualsHelper_ptr.
    destruct (e =? v)%N; reflexivity.
  - split; reflexivity.
Qed.

(** ** 64-bit integers: the text of the report *)

Lemma append_empty (t : string) : t +:+ "" = t.
Proof.
  induction t as [|c t IH]; [reflexivity|].
  change (String c (t +:+ "") = String c t). rewrite IH. reflexivity.
Qed.

(** X10: in equals mode the report of two different [int64_t] operands
    carries the file and the line, names [CHECK_EQ] and the two source
    texts, and renders each operand as its high 32-bit word followed by its
    low 32-bit word, each under [%08x]. *)
Lemma int64_equals_report (render_pointer : N -> string)
    (render_double : float -> string) (s : state) (file : string) (line : Z)
    (es vs : string) (e v : Z) :
  e <> v ->
  exists c,
    CheckEqualsHelper_int64 file line es e vs v s = (Fatal c, s)
    /\ fc_file c = file /\ fc_line c = line
    /\ message render_pointer render_double (memory s) c
       = Some ("CHECK_EQ(" +:+ es +:+ ", " +:+ vs +:+ ") failed" +:+ LF +:+
               "#   Expected: 0x" +:+
               hex_padded 8 (to_uint32 (Z.shiftr e 32)) +:+
               hex_padded 8 (to_uint32 e) +:+ LF +:+
               "#   Found: 0x" +:+
               hex_padded 8 (to_uint32 (Z.shiftr v 32)) +:+
               hex_padded 8 (to_uint32 v)).
Proof.
  intros Hne. apply Z.eqb_neq in Hne.
  unfold CheckEqualsHelper_int64, V8_Fatal. rewrite Hne. simpl.
  eexists. split; [reflexivity|]. split; [reflexivity|].
  split; [reflexivity|].
  rewrite <- (append_empty (hex_padded 8 (to_uint32 v))). reflexivity.
Qed.

(** The scenario of the specification: expected [0x0000000100000002], found
    [0x0000000000000003]. *)
Example int64_equals_report_scenario (render_pointer : N -> string)
    (render_double : float -> string) :
  (message render_pointer render_double [] <$>
     reported (CheckEqualsHelper_int64 "t.cc" 7 "a" 4294967298 "b" 3
                 example_state))
  = Some (Some ("CHECK_EQ(a, b) failed" +:+ LF +:+
                "#   Expected: 0x0000000100000002" +:+ LF +:+
                "#   Found: 0x0000000000000003")).
Proof. reflexivity. Qed.

(** C2: in not-equals mode the helper for [int64_t] operands does not render
    its operands as two 32-bit hexadecimal halves and does not name the
    failed check.  On two equal operands, whatever their value, it calls the
    reporter with a format that names [CHECK_EQ] and has two [%f]
    conversions, and passes the two 64-bit integers themselves; no text is
    defined for that call.  So it is on the operands [3] and [3].  The
    equals-mode helper, on the operands of the specification's scenario,
    renders the halves. *)
Theorem int64_not_equals_report (render_pointer : N -> string)
    (render_double : float -> string) (s : state) (file : string) (line : Z)
    (es vs : string) (x : Z) :
  CheckNonEqualsHelper_int64 file line es x vs x s
  = (Fatal (FatalCall file line
              ("CHECK_EQ(%s, %s) failed" +:+ LF +:+ "#   Expected: %f" +:+
               LF +:+ "#   Found: %f")
              [ArgText es; ArgText vs; ArgInt64 x; ArgInt64 x]), s)
  /\ (message render_pointer render_double (memory s) <$>
        reported (CheckNonEqualsHelper_int64 file line es x vs x s))
     = Some None
  /\ CheckNonEqualsHelper_int64 "t.cc" 7 "a" 3 "b" 3 s
     = (Fatal (FatalCall "t.cc" 7
                 ("CHECK_EQ(%s, %s) failed" +:+ LF +:+ "#   Expected: %f" +:+
                  LF +:+ "#   Found: %f")
                 [ArgText "a"; ArgText "b"; ArgInt64 3; ArgInt64 3]), s)
  /\ (message render_pointer render_double (memory s) <$>
        reported (CheckEqualsHelper_int64 "t.cc" 7 "a" 4294967298 "b" 3 s))
     = Some (Some ("CHECK_EQ(a, b) failed" +:+ LF +:+
                   "#   Expected: 0x0000000100000002" +:+ LF +:+
                   "#   Found: 0x0000000000000003")).
Proof.
  unfold CheckNonEqualsHelper_int64, V8_Fatal. rewrite Z.eqb_refl.
  repeat split; reflexivity.
Qed.

(** The reports of the other kinds on sample operands: integers in decimal,
    strings by their content, a failed [CHECK] by the text of its
    condition. *)
Example report_scenarios (render_pointer : N -> string)
    (render_double : float -> string) :
  (message render_pointer render_double example_memory <$>
     reported (CheckEqualsHelper_int "t.cc" 7 "a" 3 "b" (-4) example_state))
  = Some (Some ("CHECK_EQ(a, b) failed" +:+ LF +:+ "#   Expected: 3" +:+
                LF +:+ "#   Found: -4"))
  /\ (message render_pointer render_double example_memory <$>
        reported (CheckEqualsHelper_cstr "t.cc" 7 "a" 1 "b" 9 example_state))
     = Some (Some ("CHECK_EQ(a, b) failed" +:+ LF +:+ "#   Expected: abc" +:+
                   LF +:+ "#   Found: abd"))
  /\ (message render_pointer render_double example_memory <$>
        reported (CHECK_GT "t.cc" 7 (lit "3" 3) (lit "5" 5) example_state))
     = Some (Some "CHECK((3) > (5)) failed").
Proof. repeat split; reflexivity. Qed.

(** ** The success path and the free store *)






(** ** The unconditional checks *)

(** [CHECK] evaluates its condition once; it returns when the value is true
    and calls the reporter with the call site and the source text of the
    condition when it is false. *)
Lemma CHECK_run (file : string) (line : Z) (c : expr bool) (s s' : state)
    (b : bool) :
  eval c s = (Done b, s') ->
  CHECK file line c s =
    if b then (Done tt, s')
    else (Fatal (FatalCall file line "CHECK(%s) failed" [ArgText (text c)]),
          s').
Proof.
  intros Hc. unfold CHECK. rewrite (bind_done _ _ _ _ _ Hc).
  destruct b; reflexivity.
Qed.

Lemma relational_run (op_text : string) (op : Z -> Z -> bool) (a b : expr Z)
    (s s1 s2 : state) (x y : Z) :
  eval a s = (Done x, s1) -> eval b s1 = (Done y, s2) ->
  eval (relational op_text op a b) s = (Done (op x y), s2).
Proof.
  intros Ha Hb. simpl. rewrite (bind_done _ _ _ _ _ Ha).
  rewrite (bind_done _ _ _ _ _ Hb). reflexivity.
Qed.

Lemma CHECK_EQ_lit (k : kind) (file : string) (line : Z) (es vs : string)
    (e v : ctype k) (s : state) :
  CHECK_EQ k file line (lit es e) (lit vs v) s
  = CheckEqualsHelper k file line es e vs v s.
Proof. reflexivity. Qed.

Lemma CHECK_NE_lit (k : kind) (file : string) (line : Z) (es vs : string)
    (e v : ctype k) (s : state) :
  CHECK_NE k file line (lit es e) (lit vs v) s
  = CheckNonEqualsHelper k file line es e vs v s.
Proof. reflexivity. Qed.




(** ** The macros that depend on the build configuration *)

(** C5: with [DEBUG] defined, [ASSERT] and its [_EQ], [_NE], [_GE], [_LT] and
    [_LE] variants are the corresponding [CHECK] macros, and [ASSERT_RESULT]
    is [CHECK].  Without [DEBUG] each of the six is a no-op: it returns with
    the state as it was and evaluates no operand; [ASSERT_RESULT] still
    evaluates its operand, so the operand's effect on the state takes place,
    and returns whatever the value is.  With the operand [++counter == 5] and
    [counter] at 4 the production [ASSERT_RESULT] leaves [counter] at 5 and
    the production [ASSERT] leaves it at 4; at 7 the production
    [ASSERT_RESULT] returns with [counter] at 8 although the value is false,
    where the development one ends in [V8_Fatal]. *)
Theorem assert_family_by_build_mode (extra ppc : bool) (file : string)
    (line : Z) (c : expr bool) (k : kind) (v1 v2 : expr (ctype k))
    (a b : expr Z) (s : state) :
  let dev := BuildConfig true extra ppc in
  let prod := BuildConfig false extra ppc in
  (ASSERT dev file line c = CHECK file line c
   /\ ASSERT_EQ dev k file line v1 v2 = CHECK_EQ k file line v1 v2
   /\ ASSERT_NE dev k file line v1 v2 = CHECK_NE k file line v1 v2
   /\ ASSERT_GE dev file line a b = CHECK_GE file line a b
   /\ ASSERT_LT dev file line a b = CHECK_LT file line a b
   /\ ASSERT_LE dev file line a b = CHECK_LE file line a b
   /\ ASSERT_RESULT dev file line c = CHECK file line c)
  /\ (ASSERT prod file line c s = (Done tt, s)
      /\ ASSERT_EQ prod k file line v1 v2 s = (Done tt, s)
      /\ ASSERT_NE prod k file line v1 v2 s = (Done tt, s)
      /\ ASSERT_GE prod file line a b s = (Done tt, s)
      /\ ASSERT_LT prod file line a b s = (Done tt, s)
      /\ ASSERT_LE prod file line a b s = (Done tt, s))
  /\ (forall (r : bool) (s' : state),
         eval c s = (Done r, s') ->
         ASSERT_RESULT prod file line c s = (Done tt, s'))
  /\ (ASSERT_RESULT prod "t.cc" 7 increment_counter_is_5 example_state
      = (Done tt, set_globals {["counter" := 5]} example_state)
      /\ ASSERT prod "t.cc" 7 increment_counter_is_5 example_state
         = (Done tt, example_state)
      /\ ASSERT_RESULT prod "t.cc" 7 increment_counter_is_5
           (set_globals {["counter" := 7]} example_state)
         = (Done tt, set_globals {["counter" := 8]} example_state)
      /\ is_fatal (ASSERT_RESULT dev "t.cc" 7 increment_counter_is_5
                     (set_globals {["counter" := 7]} example_state))
         = true).
Proof.
  intros dev prod. split; [repeat split|]. split; [repeat split|]. split.
  - intros r s' Hc. unfold ASSERT_RESULT, evaluate. simpl.
    rewrite (bind_done _ _ _ _ _ Hc). reflexivity.
  - repeat split; reflexivity.
Qed.

(** C6: with [DEBUG] defined, [UNREACHABLE()] calls the reporter with the
    file and line of the call site and the text "unreachable code", under
    every setting of the other flags; without [DEBUG] it returns with the
    state as it was, and the statement that follows it is executed. *)
Theorem unreachable_by_build_mode (extra ppc : bool) (file : string)
    (line : Z) (s : state) (render_pointer : N -> string)
    (render_double : float -> string) (next : M unit) :
  let dev := BuildConfig true extra ppc in
  let prod := BuildConfig false extra ppc in
  UNREACHABLE dev file line s
  = (Fatal (FatalCall file line "unreachable code" []), s)
  /\ message render_pointer render_double (memory s)
       (FatalCall file line "unreachable code" [])
     = Some "unreachable code"
  /\ (do _ <- UNREACHABLE dev file line; next) s
     = (Fatal (FatalCall file line "unreachable code" []), s)
  /\ UNREACHABLE prod file line s = (Done tt, s)
  /\ (do _ <- UNREACHABLE prod file line; next) s = next s.
Proof. intros dev prod. repeat split. Qed.

(** C7: [FATAL(msg)] and [UNIMPLEMENTED()] call the reporter whether [DEBUG]
    is defined or not.  With [DEBUG] they pass the file and line of the call
    site; without it they pass the empty file name and line zero.  The
    reporter takes that call like any other: the run ends in it and the text
    of the report is defined. *)
Theorem fatal_and_unimplemented_by_build_mode (extra ppc : bool)
    (file : string) (line : Z) (msg : string) (s : state)
    (render_pointer : N -> string) (render_double : float -> string) :
  let dev := BuildConfig true extra ppc in
  let prod := BuildConfig false extra ppc in
  FATAL dev file line msg s
  = (Fatal (FatalCall file line "%s" [ArgText msg]), s)
  /\ UNIMPLEMENTED dev file line s
     = (Fatal (FatalCall file line "unimplemented code" []), s)
  /\ FATAL prod file line msg s
     = (Fatal (FatalCall "" 0 "%s" [ArgText msg]), s)
  /\ UNIMPLEMENTED prod file line s
     = (Fatal (FatalCall "" 0 "unimplemented code" []), s)
  /\ (is_fatal (@V8_Fatal unit "" 0 "%s" [ArgText msg] s) = true
      /\ message render_pointer render_double (memory s)
           (FatalCall "" 0 "%s" [ArgText msg])
         = Some msg
      /\ message render_pointer render_double (memory s)
           (FatalCall "" 0 "unimplemented code" [])
         = Some "unimplemented code").
Proof.
  intros dev prod. repeat split.
  unfold message. simpl. rewrite append_empty. reflexivity.
Qed.

(** C9: [PPCPORT_UNSAFE_IMPLEMENTATION()] is a no-op whether
    [ENABLE_EXTRA_PPCCHECKS] is defined or not, under every setting of the
    other flags.  With the flag defined, [PPCPORT_CHECK] is [CHECK] and
    [PPCPORT_UNIMPLEMENTED] is [UNIMPLEMENTED]: a false condition, and every
    use of [PPCPORT_UNIMPLEMENTED], ends in [V8_Fatal].  Without the flag
    both return with the state as it was, whatever the condition. *)
Theorem ppcport_macros_by_flag (debug extra : bool) (file : string)
    (line : Z) (c : expr bool) (s : state) :
  let on := BuildConfig debug extra true in
  let off := BuildConfig debug extra false in
  (PPCPORT_UNSAFE_IMPLEMENTATION on s = (Done tt, s)
   /\ PPCPORT_UNSAFE_IMPLEMENTATION off s = (Done tt, s))
  /\ (PPCPORT_CHECK on file line c = CHECK file line c
      /\ PPCPORT_UNIMPLEMENTED on file line = UNIMPLEMENTED on file line
      /\ is_fatal (PPCPORT_CHECK on file line (lit "false" false) s) = true
      /\ is_fatal (PPCPORT_UNIMPLEMENTED on file line s) = true)
  /\ (PPCPORT_CHECK off file line c s = (Done tt, s)
      /\ PPCPORT_UNIMPLEMENTED off file line s = (Done tt, s)
      /\ returns (PPCPORT_CHECK off file line (lit "false" false) s) = true).
Proof.
  intros on off. repeat split.
  unfold PPCPORT_UNIMPLEMENTED, UNIMPLEMENTED. simpl.
  destruct debug; reflexivity.
Qed.

(** * Further properties of the header *)

(** ** [EXTRA_CHECK] *)

(** X1: [EXTRA_CHECK] is governed by [ENABLE_EXTRA_CHECKS] alone, whatever
    [DEBUG] and [ENABLE_EXTRA_PPCCHECKS] are.  With the flag it evaluates its
    condition once, returns when the value is true and calls the reporter
    with the call site and the text of the condition when it is false.
    Without the flag it returns with the state as it was: the condition is
    not evaluated, so its effects do not take place.  Under any
    configuration it ends in [V8_Fatal] exactly when the flag is set and the
    condition is false. *)
Theorem extra_check_by_flag (debug ppc : bool) (file : string) (line : Z)
    (c : expr bool) (s s' : state) (r : bool)
    (Hc : eval c s = (Done r, s')) :
  let on := BuildConfig debug true ppc in
  let off := BuildConfig debug false ppc in
  EXTRA_CHECK on file line c s
  = (if r then (Done tt, s')
     else (Fatal (FatalCall file line "CHECK(%s) failed" [ArgText (text c)]),
           s'))
  /\ EXTRA_CHECK off file line c s = (Done tt, s)
  /\ (forall cfg : build_config,
         is_fatal (EXTRA_CHECK cfg file line c s)
         = ENABLE_EXTRA_CHECKS cfg && negb r).
Proof.
  intros on off. split; [|split].
  - unfold EXTRA_CHECK. simpl. apply CHECK_run. exact Hc.
  - reflexivity.
  - intros cfg. unfold EXTRA_CHECK.
    destruct (ENABLE_EXTRA_CHECKS cfg); simpl; [|reflexivity].
    rewrite (CHECK_run file line c s s' r Hc). destruct r; reflexivity.
Qed.

(** The condition [++counter == 5] with [counter] at 4: with the flag the
    check passes and leaves [counter] at 5, without it [counter] stays
    at 4. *)
Lemma extra_check_by_flag_example :
  eval increment_counter_is_5 example_state
  = (Done true, set_globals {["counter" := 5]} example_state)
  /\ EXTRA_CHECK (BuildConfig false true false) "t.cc" 7
       increment_counter_is_5 example_state
     = (Done tt, set_globals {["counter" := 5]} example_state)
  /\ EXTRA_CHECK (BuildConfig false false false) "t.cc" 7
       increment_counter_is_5 example_state
     = (Done tt, example_state).
Proof.
  pose proof (extra_check_by_flag false false "t.cc" 7 increment_counter_is_5
                example_state (set_globals {["counter" := 5]} example_state)
                true eq_refl) as (Hon & Hoff & _).
  split; [reflexivity|]. split; [exact Hon | exact Hoff].
Defined.

(** ** [ASSERT_NOT_NULL] *)

(** X2: with [DEBUG], [ASSERT_NOT_NULL(p)] evaluates [p] once and ends in
    [V8_Fatal] exactly when [p] is null, for a [const void*] and for a
    [const char*] operand alike; the report is the [CHECK_NE] report of the
    helper with the text of [NULL] and the text of [p].  On a [const char*]
    operand the string is never read: the outcome is the same in every
    memory, also for a pointer to bytes without a terminator.  Without
    [DEBUG] the macro returns with the state as it was and does not evaluate
    [p]. *)
Theorem assert_not_null_by_build_mode (extra ppc : bool)
    (null_text file : string) (line : Z) (pv pc : expr N) (s s' s'' : state)
    (v c : N)
    (Hv : eval pv s = (Done v, s')) (Hc : eval pc s = (Done c, s'')) :
  let dev := BuildConfig true extra ppc in
  let prod := BuildConfig false extra ppc in
  ASSERT_NOT_NULL dev KPtr null_text file line pv s
  = (if (v =? NULL)%N
     then (Fatal (FatalCall file line
                    ("CHECK_NE(%s, %s) failed" +:+ LF +:+ "#   Value: %p")
                    [ArgText null_text; ArgText (text pv); ArgPtr v]), s')
     else (Done tt, s'))
  /\ ASSERT_NOT_NULL dev KCStr null_text file line pc s
     = (if (c =? NULL)%N
        then (Fatal (FatalCall file line
                       ("CHECK_NE(%s, %s) failed" +:+ LF +:+ "#   Value: %s")
                       [ArgText null_text; ArgText (text pc); ArgCStr c]), s'')
        else (Done tt, s''))
  /\ ASSERT_NOT_NULL prod KPtr null_text file line pv s = (Done tt, s)
  /\ ASSERT_NOT_NULL prod KCStr null_text file line pc s = (Done tt, s).
Proof.
  intros dev prod. split; [|split; [|split; reflexivity]].
  - unfold ASSERT_NOT_NULL, ASSERT_NE, CHECK_NE. simpl.
    unfold bind at 1. unfold ret at 1.
    rewrite (bind_done _ _ _ _ _ Hv).
    unfold CheckNonEqualsHelper_ptr, NULL. rewrite (N.eqb_sym v 0).
    destruct (0 =? v)%N; reflexivity.
  - unfold ASSERT_NOT_NULL, ASSERT_NE, CHECK_NE. simpl.
    unfold bind at 1. unfold ret at 1.
    rewrite (bind_done _ _ _ _ _ Hc).
    unfold CheckNonEqualsHelper_cstr, orM, andM, bind, ret, V8_Fatal, NULL.
    rewrite (N.eqb_sym c 0). destruct (0 =? c)%N; reflexivity.
Qed.

(** A pointer past the end of the memory is not null: the check passes
    without reading it; the null pointer is reported. *)
Lemma assert_not_null_by_build_mode_example :
  eval (lit "p" 40%N) example_state = (Done 40%N, example_state)
  /\ eval (lit "q" NULL) example_state = (Done NULL, example_state)
  /\ ASSERT_NOT_NULL (BuildConfig true false false) KCStr "NULL" "t.cc" 7
       (lit "q" NULL) example_state
     = (Fatal (FatalCall "t.cc" 7
                 ("CHECK_NE(%s, %s) failed" +:+ LF +:+ "#   Value: %s")
                 [ArgText "NULL"; ArgText "q"; ArgCStr NULL]), example_state)
  /\ ASSERT_NOT_NULL (BuildConfig true false false) KPtr "NULL" "t.cc" 7
       (lit "p" 40%N) example_state
     = (Done tt, example_state).
Proof.
  pose proof (assert_not_null_by_build_mode false false "NULL" "t.cc" 7
                (lit "p" 40%N) (lit "q" NULL)
                example_state example_state example_state 40%N NULL
                eq_refl eq_refl) as (Hp & Hq & _).
  split; [reflexivity|]. split; [reflexivity|]. split; [exact Hq | exact Hp].
Defined.

(** ** Null operands of the string helpers *)

(** X3: when one of the two [const char*] operands is null, the string
    helpers decide by the addresses alone and do not call [strcmp]: in every
    state, whatever the memory holds and wherever the other operand points,
    the equals-mode helper returns when both are null and reports otherwise,
    and the not-equals-mode helper does the opposite, with the state as it
    was.  The not-equals-mode helper given the same address twice reports
    without reading the string either. *)
Theorem cstr_helpers_never_read_null (s : state) (file : string) (line : Z)
    (es vs : string) (e v : N)
    (Hnull : e = NULL \/ v = NULL) :
  CheckEqualsHelper_cstr file line es e vs v s
  = (if (e =? v)%N then (Done tt, s)
     else (Fatal (FatalCall file line
                    ("CHECK_EQ(%s, %s) failed" +:+ LF +:+
                     "#   Expected: %s" +:+ LF +:+ "#   Found: %s")
                    [ArgText es; ArgText vs; ArgCStr e; ArgCStr v]), s))
  /\ CheckNonEqualsHelper_cstr file line es e vs v s
     = (if (e =? v)%N
        then (Fatal (FatalCall file line
                       ("CHECK_NE(%s, %s) failed" +:+ LF +:+ "#   Value: %s")
                       [ArgText es; ArgText vs; ArgCStr v]), s)
        else (Done tt, s))
  /\ CheckNonEqualsHelper_cstr file line es v vs v s
     = (Fatal (FatalCall file line
                 ("CHECK_NE(%s, %s) failed" +:+ LF +:+ "#   Value: %s")
                 [ArgText es; ArgText vs; ArgCStr v]), s).
Proof.
  unfold CheckEqualsHelper_cstr, CheckNonEqualsHelper_cstr,
    orM, andM, bind, ret, V8_Fatal, NULL.
  rewrite N.eqb_refl.
  destruct Hnull as [-> | ->].
  - destruct v as [|p]; repeat split; reflexivity.
  - destruct e as [|p]; repeat split; reflexivity.
Qed.

(** Null against an address outside the memory. *)
Lemma cstr_helpers_never_read_null_example :
  (NULL = NULL \/ 40%N = NULL)
  /\ is_fatal (CheckEqualsHelper_cstr "t.cc" 7 "a" NULL "b" 40 example_state)
     = true
  /\ CheckNonEqualsHelper_cstr "t.cc" 7 "a" NULL "b" 40 example_state
     = (Done tt, example_state).
Proof.
  pose proof (cstr_helpers_never_read_null example_state "t.cc" 7 "a" "b"
                NULL 40%N (or_introl eq_refl)) as (He & Hn & _).
  split; [left; reflexivity|]. split.
  - rewrite He. reflexivity.
  - exact Hn.
Defined.

(** ** The two words of a 64-bit operand *)

Lemma int64_words (x : Z) :
  - 2 ^ 63 <= x < 2 ^ 63 ->
  0 <= to_uint32 (Z.shiftr x 32) < 2 ^ 32
  /\ 0 <= to_uint32 x < 2 ^ 32
  /\ int64_of_words (to_uint32 (Z.shiftr x 32)) (to_uint32 x) = x.
Proof.
  intros Hx. unfold to_uint32, int64_of_words.
  rewrite Z.shiftr_div_pow2 by lia.
  pose proof (Z.mod_pos_bound (x / 2 ^ 32) (2 ^ 32) ltac:(lia)) as Hhi.
  pose proof (Z.mod_pos_bound x (2 ^ 32) ltac:(lia)) as Hlo.
  split; [exact Hhi|]. split; [exact Hlo|].
  assert (Hu : (x / 2 ^ 32) mod 2 ^ 32 * 2 ^ 32 + x mod 2 ^ 32
               = x mod 2 ^ 64).
  { change (2 ^ 64) with (2 ^ 32 * 2 ^ 32).
    rewrite Z.rem_mul_r by lia. ring. }
  cbv zeta. rewrite Hu.
  destruct (Z.lt_ge_cases x 0) as [Hneg|Hpos].
  - assert (Hm : x mod 2 ^ 64 = x + 2 ^ 64).
    { rewrite <- (Z.mod_add x 1 (2 ^ 64)) by lia.
      rewrite Z.mul_1_l. apply Z.mod_small. lia. }
    rewrite Hm. destruct (Z.ltb_spec (x + 2 ^ 64) (2 ^ 63)); lia.
  - rewrite (Z.mod_small x (2 ^ 64)) by lia.
    destruct (Z.ltb_spec x (2 ^ 63)); lia.
Qed.

(** X4: the equals-mode helper for [int64_t] passes each operand to the
    reporter as two [uint32_t] words, high word first, and the two words
    determine the operand: recombined as a 64-bit two's complement number
    they give back the operand, negative ones included.  So the word pairs
    of the two operands of a report are never the same. *)
Theorem int64_report_words_determine_operands (s : state) (file : string)
    (line : Z) (es vs : string) (e v : Z)
    (He : - 2 ^ 63 <= e < 2 ^ 63) (Hv : - 2 ^ 63 <= v < 2 ^ 63)
    (Hne : e <> v) :
  exists he le hv lv : Z,
    reported (CheckEqualsHelper_int64 file line es e vs v s)
    = Some (FatalCall file line
              ("CHECK_EQ(%s, %s) failed" +:+ LF +:+ "#" +:+
               "   Expected: 0x%08x%08x" +:+ LF +:+ "#   Found: 0x%08x%08x")
              [ArgText es; ArgText vs;
               ArgUInt32 he; ArgUInt32 le; ArgUInt32 hv; ArgUInt32 lv])
    /\ (0 <= he < 2 ^ 32 /\ 0 <= le < 2 ^ 32)
    /\ (0 <= hv < 2 ^ 32 /\ 0 <= lv < 2 ^ 32)
    /\ int64_of_words he le = e
    /\ int64_of_words hv lv = v
    /\ (he, le) <> (hv, lv).
Proof.
  destruct (int64_words e He) as (Heh & Hel & Her).
  destruct (int64_words v Hv) as (Hvh & Hvl & Hvr).
  exists (to_uint32 (Z.shiftr e 32)), (to_uint32 e),
         (to_uint32 (Z.shiftr v 32)), (to_uint32 v).
  split.
  - unfold CheckEqualsHelper_int64, V8_Fatal.
    apply Z.eqb_neq in Hne. rewrite Hne. reflexivity.
  - split; [split; assumption|]. split; [split; assumption|].
    split; [exact Her|]. split; [exact Hvr|].
    intros Heq. injection Heq as Hh Hl. apply Hne.
    rewrite <- Her, <- Hvr, Hh, Hl. reflexivity.
Qed.

(** The operands [-1] and [4294967298]: the words are [ffffffff ffffffff]
    and [00000001 00000002]. *)
Lemma int64_report_words_determine_operands_example :
  (- 2 ^ 63 <= -1 < 2 ^ 63) /\ (- 2 ^ 63 <= 4294967298 < 2 ^ 63)
  /\ -1 <> 4294967298
  /\ exists he le hv lv : Z,
      reported (CheckEqualsHelper_int64 "t.cc" 7 "a" (-1) "b" 4294967298
                  example_state)
      = Some (FatalCall "t.cc" 7
                ("CHECK_EQ(%s, %s) failed" +:+ LF +:+ "#" +:+
                 "   Expected: 0x%08x%08x" +:+ LF +:+
                 "#   Found: 0x%08x%08x")
                [ArgText "a"; ArgText "b";
                 ArgUInt32 he; ArgUInt32 le; ArgUInt32 hv; ArgUInt32 lv])
      /\ int64_of_words he le = -1
      /\ int64_of_words hv lv = 4294967298.
Proof.
  assert (H1 : - 2 ^ 63 <= -1 < 2 ^ 63) by lia.
  assert (H2 : - 2 ^ 63 <= 4294967298 < 2 ^ 63) by lia.
  assert (H3 : -1 <> 4294967298) by lia.
  split; [exact H1|]. split; [exact H2|]. split; [exact H3|].
  destruct (int64_report_words_determine_operands example_state "t.cc" 7
              "a" "b" (-1) 4294967298 H1 H2 H3)
    as (he & le & hv & lv & Hr & _ & _ & Hde & Hdv & _).
  exists he, le, hv, lv. split; [exact Hr|]. split; [exact Hde | exact Hdv].
Defined.

(** ** Passing checks as a relation on operands *)

Lemma CheckEqualsHelper_returns (k : kind) (s : state) (file : string)
    (line : Z) (es vs : string) (e v : ctype k) :
  helper_pre k s e v = true ->
  returns (CheckEqualsHelper k file line es e vs v s)
  = kind_eqb k (memory s) e v.
Proof.
  intros Hpre.
  pose proof (CheckEqualsHelper_outcome k s file line es vs e v Hpre) as H.
  destruct (kind_eqb k (memory s) e v).
  - rewrite H. reflexivity.
  - apply is_fatal_returns. exact H.
Qed.

Lemma CheckNonEqualsHelper_fatal (k : kind) (s : state) (file : string)
    (line : Z) (es vs : string) (e v : ctype k) :
  helper_pre k s e v = true ->
  is_fatal (CheckNonEqualsHelper k file line es e vs v s)
  = kind_eqb k (memory s) e v.
Proof.
  intros Hpre.
  pose proof (CheckNonEqualsHelper_outcome k s file line es vs e v Hpre) as H.
  destruct (kind_eqb k (memory s) e v).
  - exact H.
  - rewrite H. reflexivity.
Qed.

(** The comparison of two binary64 values, through its specification on
    [spec_float]. *)
Lemma SFeqb_sym (x y : spec_float) : SFeqb x y = SFeqb y x.
Proof.
  unfold SFeqb, SFcompare.
  destruct x as [sx|sx| |sx mx ex], y as [sy|sy| |sy my ey]; try reflexivity;
    try (destruct sx, sy; reflexivity); try (destruct sx; reflexivity);
    try (destruct sy; reflexivity).
  change (PosDef.Pos.compare_cont Eq mx my) with (Pos.compare mx my).
  change (PosDef.Pos.compare_cont Eq my mx) with (Pos.compare my mx).
  rewrite (Z.compare_antisym ex ey), (Pos.compare_antisym mx my).
  destruct sx, sy, (ex ?= ey)%Z, (mx ?= my)%positive; reflexivity.
Qed.

Lemma SFeqb_trans (x y z : spec_float) :
  SFeqb x y = true -> SFeqb y z = true -> SFeqb x z = true.
Proof.
  unfold SFeqb, SFcompare.
  destruct x as [sx|sx| |sx mx ex], y as [sy|sy| |sy my ey],
           z as [sz|sz| |sz mz ez];
    try (destruct sx); try (destruct sy); try (destruct sz);
    try congruence.
  all: change (PosDef.Pos.compare_cont Eq mx my) with (Pos.compare mx my);
    change (PosDef.Pos.compare_cont Eq my mz) with (Pos.compare my mz);
    change (PosDef.Pos.compare_cont Eq mx mz) with (Pos.compare mx mz);
    destruct (Z.compare_spec ex ey), (Z.compare_spec ey ez); try congruence;
    destruct (Pos.compare_spec mx my), (Pos.compare_spec my mz);
    simpl; try congruence; subst;
    rewrite Z.compare_refl, Pos.compare_refl; reflexivity.
Qed.

Lemma SFeqb_irrefl_nan (x : spec_float) : SFeqb x x = false <-> x = S754_nan.
Proof.
  unfold SFeqb, SFcompare.
  destruct x as [sx|sx| |sx mx ex]; try (split; congruence).
  - destruct sx; split; congruence.
  - change (PosDef.Pos.compare_cont Eq mx mx) with (Pos.compare mx mx).
    rewrite Z.compare_refl, Pos.compare_refl.
    destruct sx; simpl; split; congruence.
Qed.

Lemma classify_nan (x : float) :
  classify x = FloatClass.NaN <-> Prim2SF x = S754_nan.
Proof.
  rewrite classify_spec. unfold SF64classify, SFclassify.
  destruct (Prim2SF x) as [sx|sx| |sx mx ex]; try destruct sx;
    try (split; congruence).
  - destruct (Z.eqb _ _); split; congruence.
  - destruct (Z.eqb _ _); split; congruence.
Qed.

Lemma content_equal_sym (m : list byte) (p q : N) :
  content_equal m p q = content_equal m q p.
Proof.
  unfold content_equal.
  destruct (p =? NULL)%N, (q =? NULL)%N; try reflexivity.
  apply bool_decide_ext. split; congruence.
Qed.

Lemma content_equal_trans (m : list byte) (p q r : N) :
  content_equal m p q = true -> content_equal m q r = true ->
  content_equal m p r = true.
Proof.
  unfold content_equal.
  destruct (p =? NULL)%N, (q =? NULL)%N, (r =? NULL)%N; try congruence.
  rewrite !bool_decide_eq_true. congruence.
Qed.

Lemma kind_eqb_sym (k : kind) (m : list byte) (a b : ctype k) :
  kind_eqb k m a b = kind_eqb k m b a.
Proof.
  destruct k; simpl.
  - apply Z.eqb_sym.
  - apply Z.eqb_sym.
  - apply content_equal_sym.
  - apply N.eqb_sym.
  - rewrite !FloatAxioms.eqb_spec. apply SFeqb_sym.
Qed.

Lemma kind_eqb_trans (k : kind) (m : list byte) (a b c : ctype k) :
  kind_eqb k m a b = true -> kind_eqb k m b c = true ->
  kind_eqb k m a c = true.
Proof.
  destruct k; simpl.
  - rewrite !Z.eqb_eq. congruence.
  - rewrite !Z.eqb_eq. congruence.
  - apply content_equal_trans.
  - rewrite !N.eqb_eq. congruence.
  - rewrite !FloatAxioms.eqb_spec. apply SFeqb_trans.
Qed.

Lemma kind_eqb_refl (k : kind) (m : list byte) (a : ctype k) :
  k <> KDouble -> kind_eqb k m a a = true.
Proof.
  destruct k; simpl; intros Hk.
  - apply Z.eqb_refl.
  - apply Z.eqb_refl.
  - apply content_equal_same.
  - apply N.eqb_refl.
  - congruence.
Qed.

Lemma helper_pre_pairs (k : kind) (s : state) (a b c : ctype k) :
  helper_pre k s a b = true -> helper_pre k s b c = true ->
  helper_pre k s a a = true /\ helper_pre k s b a = true
  /\ helper_pre k s a c = true.
Proof.
  destruct k; simpl; intros Hab Hbc; try (repeat split; reflexivity).
  - apply andb_true_iff in Hab, Hbc. destruct Hab as [Ha Hb], Hbc as [_ Hc].
    rewrite Ha, Hb, Hc. repeat split; reflexivity.
  - repeat split; exact Hab.
Qed.

(** X5: on well-formed operands, "[CHECK_EQ] passes" is a symmetric and
    transitive relation for every operand kind, and "[CHECK_NE] fails" is
    the same relation: swapping the two operands never changes whether a
    check passes, and if [CHECK_EQ(a, b)] and [CHECK_EQ(b, c)] pass then
    [CHECK_EQ(a, c)] passes.  For every kind but [double] the relation is
    also reflexive, so it is an equivalence.  The file, the line and the
    source texts play no part. *)
Theorem passing_equality_checks_are_consistent (k : kind) (s : state)
    (file file' : string) (line line' : Z) (ta tb tc ta' tb' : string)
    (a b c : ctype k)
    (Hab : helper_pre k s a b = true) (Hbc : helper_pre k s b c = true) :
  returns (CheckEqualsHelper k file line ta a tb b s)
  = returns (CheckEqualsHelper k file' line' tb' b ta' a s)
  /\ (returns (CheckEqualsHelper k file line ta a tb b s) = true ->
      returns (CheckEqualsHelper k file line tb b tc c s) = true ->
      returns (CheckEqualsHelper k file line ta a tc c s) = true)
  /\ (k <> KDouble ->
      returns (CheckEqualsHelper k file line ta a ta a s) = true)
  /\ is_fatal (CheckNonEqualsHelper k file line ta a tb b s)
     = returns (CheckEqualsHelper k file' line' ta' a tb' b s)
  /\ is_fatal (CheckNonEqualsHelper k file line ta a tb b s)
     = is_fatal (CheckNonEqualsHelper k file' line' tb' b ta' a s).
Proof.
  destruct (helper_pre_pairs k s a b c Hab Hbc) as (Haa & Hba & Hac).
  rewrite !CheckEqualsHelper_returns, !CheckNonEqualsHelper_fatal
    by assumption.
  split; [apply kind_eqb_sym|]. split; [apply kind_eqb_trans|].
  split; [apply kind_eqb_refl|]. split; [reflexivity | apply kind_eqb_sym].
Qed.

(** Three strings of the example memory: "abc" at addresses 1 and 5, "abd"
    at address 9. *)
Lemma passing_equality_checks_are_consistent_example :
  helper_pre KCStr example_state 1%N 5%N = true
  /\ helper_pre KCStr example_state 5%N 9%N = true
  /\ returns (CheckEqualsHelper KCStr "t.cc" 7 "a" 1%N "b" 5%N example_state)
     = returns (CheckEqualsHelper KCStr "u.cc" 9 "b" 5%N "a" 1%N
                  example_state).
Proof.
  pose proof (passing_equality_checks_are_consistent KCStr example_state
                "t.cc" "u.cc" 7 9 "a" "b" "c" "a" "b" 1%N 5%N 9%N
                eq_refl eq_refl) as (Hsym & _).
  split; [reflexivity|]. split; [reflexivity | exact Hsym].
Defined.

(** ** Doubles: not-a-number *)

(** X6: with room for the two cells in the free store, [CHECK_EQ(x, x)] on a
    [double] ends in [V8_Fatal] exactly when [x] is a NaN, and
    [CHECK_NE(x, x)] returns exactly when [x] is a NaN: on doubles the
    passing of [CHECK_EQ] is not reflexive, and a NaN is the only value
    that differs from itself. *)
Theorem double_check_against_itself (s : state) (file : string) (line : Z)
    (es vs : string) (x : float)
    (Hroom : heap_room 2 s = true) :
  (is_fatal (CheckEqualsHelper_double file line es x vs x s) = true
   <-> classify x = FloatClass.NaN)
  /\ (CheckEqualsHelper_double file line es x vs x s = (Done tt, s)
      <-> classify x <> FloatClass.NaN)
  /\ (CheckNonEqualsHelper_double file line es x vs x s = (Done tt, s)
      <-> classify x = FloatClass.NaN)
  /\ (is_fatal (CheckNonEqualsHelper_double file line es x vs x s) = true
      <-> classify x <> FloatClass.NaN).
Proof.
  pose proof (CheckEqualsHelper_double_run s file line es vs x x Hroom) as He.
  pose proof (CheckNonEqualsHelper_double_run s file line es vs x x Hroom)
    as Hn.
  rewrite classify_nan, <- SFeqb_irrefl_nan, <- FloatAxioms.eqb_spec.
  destruct (PrimFloat.eqb x x).
  - rewrite He. pose proof (is_fatal_returns _ Hn) as Hr.
    repeat split; try congruence.
    + simpl. congruence.
    + intros Hd. rewrite Hd in Hn. simpl in Hn. congruence.
  - rewrite Hn. repeat split; try congruence.
    + intros Hd. rewrite Hd in He. simpl in He. congruence.
    + simpl. congruence.
Qed.

(** A NaN against itself in the example state. *)
Lemma double_check_against_itself_example :
  heap_room 2 example_state = true
  /\ is_fatal (CheckEqualsHelper_double "t.cc" 7 "a" nan "b" nan
                 example_state) = true
  /\ CheckNonEqualsHelper_double "t.cc" 7 "a" nan "b" nan example_state
     = (Done tt, example_state).
Proof.
  pose proof (double_check_against_itself example_state "t.cc" 7 "a" "b" nan
                eq_refl) as (He & _ & Hn & _).
  split; [reflexivity|]. split.
  - apply He. reflexivity.
  - apply Hn. reflexivity.
Defined.

(** ** A failed second allocation *)

(** X7: when the free store has room for one more cell but not for two, both
    [double] helpers fail in their second [new double[1]], whatever the
    operands, and the cell of the first allocation is not freed: the run
    ends with the free store one cell larger than before, that cell holding
    the first operand. *)
Theorem double_helpers_leak_first_cell (s : state) (file : string)
    (line : Z) (es vs : string) (e v : float)
    (Hone : heap_room 1 s = true) (Htwo : heap_room 2 s = false) :
  exists a : N,
    a <> NULL /\ heap s !! a = None
    /\ CheckEqualsHelper_double file line es e vs v s
       = (BadAlloc, set_heap (<[a := Some e]> (heap s)) s)
    /\ CheckNonEqualsHelper_double file line es e vs v s
       = (BadAlloc, set_heap (<[a := Some e]> (heap s)) s)
    /\ size (heap (snd (CheckEqualsHelper_double file line es e vs v s)))
       = S (size (heap s)).
Proof.
  destruct (new_double_run s Hone) as (a & Ha & Hfa & Hnn).
  set (s1 := set_heap (<[a := Some e]> (heap s)) s).
  assert (Hs1 : store_double a e (set_heap (<[a := None]> (heap s)) s)
                = (Done tt, s1)).
  { unfold store_double. simpl. rewrite lookup_insert_eq.
    unfold s1. rewrite insert_insert_eq. reflexivity. }
  assert (Hfull : new_double s1 = (BadAlloc, s1)).
  { apply new_double_full. apply bool_decide_eq_false.
    apply bool_decide_eq_false in Htwo. unfold s1. simpl.
    rewrite map_size_insert_None by exact Hfa. lia. }
  assert (He : CheckEqualsHelper_double file line es e vs v s
               = (BadAlloc, s1)).
  { unfold CheckEqualsHelper_double.
    rewrite (bind_done _ _ _ _ _ Ha). cbv beta.
    rewrite (bind_done _ _ _ _ _ Hs1).
    unfold bind at 1. rewrite Hfull. reflexivity. }
  exists a. split; [exact Hnn|]. split; [exact Hfa|]. split; [exact He|].
  split.
  - unfold CheckNonEqualsHelper_double.
    rewrite (bind_done _ _ _ _ _ Ha). cbv beta.
    rewrite (bind_done _ _ _ _ _ Hs1).
    unfold bind at 1. rewrite Hfull. reflexivity.
  - rewrite He. unfold s1. simpl. apply map_size_insert_None. exact Hfa.
Qed.

(** A free store with room for exactly one cell. *)
Lemma double_helpers_leak_first_cell_example :
  heap_room 1 one_cell_state = true /\ heap_room 2 one_cell_state = false
  /\ exists a : N,
      CheckEqualsHelper_double "t.cc" 7 "a" 1%float "b" 1%float
        one_cell_state
      = (BadAlloc, set_heap (<[a := Some 1%float]> (heap one_cell_state))
                     one_cell_state).
Proof.
  destruct (double_helpers_leak_first_cell one_cell_state "t.cc" 7 "a" "b"
              1%float 1%float eq_refl eq_refl) as (a & _ & _ & He & _).
  split; [reflexivity|]. split; [reflexivity|]. exists a. exact He.
Defined.

(** ** The ordering checks and the integer equality checks together *)

Lemma CHECK_EQ_int_run (file : string) (line : Z) (a b : expr Z)
    (s s1 s2 : state) (x y : Z) :
  eval a s = (Done x, s1) -> eval b s1 = (Done y, s2) ->
  CHECK_EQ KInt file line a b s
  = CheckEqualsHelper_int file line (text a) x (text b) y s2
  /\ CHECK_NE KInt file line a b s
     = CheckNonEqualsHelper_int file line (text a) x (text b) y s2.
Proof.
  intros Ha Hb. unfold CHECK_EQ, CHECK_NE.
  rewrite !(bind_done _ _ _ _ _ Ha). rewrite !(bind_done _ _ _ _ _ Hb).
  split; reflexivity.
Qed.

(** X8: for two [int] operands that evaluate to [x] and [y], exactly one of
    [CHECK_LT(a, b)], [CHECK_EQ(a, b)] and [CHECK_GT(a, b)] returns and the
    other two end in [V8_Fatal]; [CHECK_GE] returns exactly when [CHECK_LT]
    does not, [CHECK_LE] exactly when [CHECK_GT] does not, and [CHECK_NE]
    exactly when [CHECK_EQ] does not.  Each of the six evaluates both
    operands once and leaves the state the operands produce. *)
Theorem ordering_and_equality_checks_trichotomy (file : string) (line : Z)
    (a b : expr Z) (s s1 s2 : state) (x y : Z)
    (Ha : eval a s = (Done x, s1)) (Hb : eval b s1 = (Done y, s2)) :
  ((returns (CHECK_LT file line a b s) = true
    /\ is_fatal (CHECK_EQ KInt file line a b s) = true
    /\ is_fatal (CHECK_GT file line a b s) = true)
   \/ (is_fatal (CHECK_LT file line a b s) = true
       /\ returns (CHECK_EQ KInt file line a b s) = true
       /\ is_fatal (CHECK_GT file line a b s) = true)
   \/ (is_fatal (CHECK_LT file line a b s) = true
       /\ is_fatal (CHECK_EQ KInt file line a b s) = true
       /\ returns (CHECK_GT file line a b s) = true))
  /\ returns (CHECK_GE file line a b s) = is_fatal (CHECK_LT file line a b s)
  /\ returns (CHECK_LE file line a b s) = is_fatal (CHECK_GT file line a b s)
  /\ returns (CHECK_NE KInt file line a b s)
     = is_fatal (CHECK_EQ KInt file line a b s)
  /\ (snd (CHECK_LT file line a b s) = s2
      /\ snd (CHECK_LE file line a b s) = s2
      /\ snd (CHECK_GT file line a b s) = s2
      /\ snd (CHECK_GE file line a b s) = s2
      /\ snd (CHECK_EQ KInt file line a b s) = s2
      /\ snd (CHECK_NE KInt file line a b s) = s2).
Proof.
  destruct (CHECK_EQ_int_run file line a b s s1 s2 x y Ha Hb) as [-> ->].
  unfold CHECK_GT, CHECK_GE, CHECK_LT, CHECK_LE.
  rewrite (CHECK_run file line _ s s2 _
             (relational_run ">" Z.gtb a b s s1 s2 x y Ha Hb)).
  rewrite (CHECK_run file line _ s s2 _
             (relational_run ">=" Z.geb a b s s1 s2 x y Ha Hb)).
  rewrite (CHECK_run file line _ s s2 _
             (relational_run "<" Z.ltb a b s s1 s2 x y Ha Hb)).
  rewrite (CHECK_run file line _ s s2 _
             (relational_run "<=" Z.leb a b s s1 s2 x y Ha Hb)).
  unfold CheckEqualsHelper_int, CheckNonEqualsHelper_int.
  rewrite Z.gtb_ltb, Z.geb_leb.
  destruct (Z.ltb_spec y x), (Z.leb_spec y x), (Z.ltb_spec x y),
    (Z.leb_spec x y), (Z.eqb_spec x y); simpl; try lia;
    (split; [tauto|repeat split]).
Qed.

(** The operands [3] and [5]. *)
Lemma ordering_and_equality_checks_trichotomy_example :
  eval (lit "3" 3) example_state = (Done 3, example_state)
  /\ eval (lit "5" 5) example_state = (Done 5, example_state)
  /\ returns (CHECK_GE "t.cc" 7 (lit "3" 3) (lit "5" 5) example_state)
     = is_fatal (CHECK_LT "t.cc" 7 (lit "3" 3) (lit "5" 5) example_state).
Proof.
  pose proof (ordering_and_equality_checks_trichotomy "t.cc" 7
                (lit "3" 3) (lit "5" 5)
                example_state example_state example_state 3 5
                eq_refl eq_refl) as (_ & Hge & _).
  split; [reflexivity|]. split; [reflexivity | exact Hge].
Defined.

(** ** What every report of a helper carries *)

Lemma CheckEqualsHelper_double_report (s : state) (file : string) (line : Z)
    (es vs : string) (e v : float) :
  heap_room 2 s = true -> PrimFloat.eqb e v = false ->
  exists s2,
    CheckEqualsHelper_double file line es e vs v s
    = (Fatal (FatalCall file line
                ("CHECK_EQ(%s, %s) failed" +:+ LF +:+ "#   Expected: %f" +:+
                 LF +:+ "#   Found: %f")
                [ArgText es; ArgText vs; ArgDouble e; ArgDouble v]), s2).
Proof.
  intros Hroom Hne. unfold CheckEqualsHelper_double.
  destruct (two_cells_run s e v
              (fun exp val =>
                 do e0 <- load_double exp;
                 do v0 <- load_double val;
                 do _ <- (if negb (PrimFloat.eqb e0 v0) then
                            do e' <- load_double exp;
                            do v' <- load_double val;
                            V8_Fatal file line
                              ("CHECK_EQ(%s, %s) failed" +:+ LF +:+
                               "#   Expected: %f" +:+ LF +:+
                               "#   Found: %f")
                              [ArgText es; ArgText vs;
                               ArgDouble e'; ArgDouble v']
                          else ret tt);
                 do _ <- delete_double exp;
                 delete_double val) Hroom)
    as (a & b & Hab & Hfa & Hfb & Hrun).
  rewrite Hrun. clear Hrun.
  rewrite (bind_done _ _ _ _ _ (load_first_cell _ a b e v s Hab)).
  rewrite (bind_done _ _ _ _ _ (load_second_cell _ a b e v s)).
  rewrite Hne. simpl.
  unfold bind at 1. unfold bind at 1.
  rewrite (load_first_cell _ a b e v s Hab).
  unfold bind at 1. rewrite (load_second_cell _ a b e v s).
  eexists. reflexivity.
Qed.

Lemma CheckNonEqualsHelper_double_report (s : state) (file : string)
    (line : Z) (es vs : string) (e v : float) :
  heap_room 2 s = true -> PrimFloat.eqb e v = true ->
  exists s2,
    CheckNonEqualsHelper_double file line es e vs v s
    = (Fatal (FatalCall file line
                ("CHECK_NE(%s, %s) failed" +:+ LF +:+ "#   Value: %f")
                [ArgText es; ArgText vs; ArgDouble v]), s2).
Proof.
  intros Hroom Heq. unfold CheckNonEqualsHelper_double.
  destruct (two_cells_run s e v
              (fun exp val =>
                 do e0 <- load_double exp;
                 do v0 <- load_double val;
                 do _ <- (if PrimFloat.eqb e0 v0 then
                            do v' <- load_double val;
                            V8_Fatal file line
                              ("CHECK_NE(%s, %s) failed" +:+ LF +:+
                               "#   Value: %f")
                              [ArgText es; ArgText vs; ArgDouble v']
                          else ret tt);
                 do _ <- delete_double exp;
                 delete_double val) Hroom)
    as (a & b & Hab & Hfa & Hfb & Hrun).
  rewrite Hrun. clear Hrun.
  rewrite (bind_done _ _ _ _ _ (load_first_cell _ a b e v s Hab)).
  rewrite (bind_done _ _ _ _ _ (load_second_cell _ a b e v s)).
  rewrite Heq. simpl.
  unfold bind at 1. unfold bind at 1.
  rewrite (load_second_cell _ a b e v s).
  eexists. reflexivity.
Qed.

(** A well-formed string operand has a text under [%s]. *)
Lemma render_cstr_defined (render_pointer : N -> string)
    (render_double : float -> string) (m : list byte) (p : N) :
  cstr_ok m p = true ->
  exists t, render render_pointer render_double m ConvS (ArgCStr p) = Some t.
Proof.
  unfold cstr_ok, render. intros Hok.
  destruct (p =? NULL)%N; [eexists; reflexivity|].
  simpl in Hok. apply bool_decide_eq_true in Hok. destruct Hok as [b Hb].
  rewrite Hb. eexists. reflexivity.
Qed.

(** X9: on well-formed operands, whenever a helper of any kind ends in
    [V8_Fatal], the call carries the file and the line the helper was given
    and, as its first two arguments, the source texts of the two operands.
    In equals mode the format begins with [CHECK_EQ(] and the format and
    its arguments agree, so the text of the report is defined.  In
    not-equals mode the same holds with [CHECK_NE(] for every kind but
    [int64_t]. *)
Theorem helper_reports_are_well_formed (k : kind) (s : state)
    (file : string) (line : Z) (es vs : string) (e v : ctype k)
    (render_pointer : N -> string) (render_double : float -> string)
    (c : fatal_call)
    (Hpre : helper_pre k s e v = true) :
  (reported (CheckEqualsHelper k file line es e vs v s) = Some c ->
   fc_file c = file /\ fc_line c = line
   /\ take 2 (fc_args c) = [ArgText es; ArgText vs]
   /\ String.prefix "CHECK_EQ(" (fc_format c) = true
   /\ is_Some (message render_pointer render_double (memory s) c))
  /\ (reported (CheckNonEqualsHelper k file line es e vs v s) = Some c ->
      fc_file c = file /\ fc_line c = line
      /\ take 2 (fc_args c) = [ArgText es; ArgText vs]
      /\ (k <> KInt64 ->
          String.prefix "CHECK_NE(" (fc_format c) = true
          /\ is_Some (message render_pointer render_double (memory s) c))).
Proof.
  destruct k; simpl in *.
  - unfold CheckEqualsHelper_int, CheckNonEqualsHelper_int.
    destruct (e =? v); simpl; split; intros Hc; try discriminate Hc;
      injection Hc as <-; repeat split; eexists; reflexivity.
  - unfold CheckEqualsHelper_int64, CheckNonEqualsHelper_int64.
    destruct (e =? v); simpl; split; intros Hc; try discriminate Hc;
      injection Hc as <-; repeat split; try congruence;
      eexists; reflexivity.
  - apply andb_true_iff in Hpre. destruct Hpre as [He Hv].
    rewrite (CheckEqualsHelper_cstr_run s file line es vs e v He Hv).
    rewrite (CheckNonEqualsHelper_cstr_run s file line es vs e v He Hv).
    generalize dependent (memory s). intros m He Hv.
    destruct (render_cstr_defined render_pointer render_double m e He)
      as [te Hte].
    destruct (render_cstr_defined render_pointer render_double m v Hv)
      as [tv Htv].
    destruct (content_equal m e v); simpl; split; intros Hc;
      try discriminate Hc; injection Hc as <-; repeat split;
      unfold message; cbv -[render]; rewrite ?Hte, ?Htv;
      eexists; reflexivity.
  - unfold CheckEqualsHelper_ptr, CheckNonEqualsHelper_ptr.
    destruct (e =? v)%N; simpl; split; intros Hc; try discriminate Hc;
      injection Hc as <-; repeat split; eexists; reflexivity.
  - destruct (PrimFloat.eqb e v) eqn:E; split; intros Hc.
    + pose proof (CheckEqualsHelper_double_run s file line es vs e v Hpre)
        as Hrun.
      rewrite E in Hrun. rewrite Hrun in Hc. discriminate Hc.
    + destruct (CheckNonEqualsHelper_double_report s file line es vs e v
                  Hpre E) as [s2 Hrun].
      rewrite Hrun in Hc. injection Hc as <-.
      repeat split; eexists; reflexivity.
    + destruct (CheckEqualsHelper_double_report s file line es vs e v
                  Hpre E) as [s2 Hrun].
      rewrite Hrun in Hc. injection Hc as <-.
      repeat split; eexists; reflexivity.
    + pose proof (CheckNonEqualsHelper_double_run s file line es vs e v Hpre)
        as Hrun.
      rewrite E in Hrun. rewrite Hrun in Hc. discriminate Hc.
Qed.

(** The report of "abc" against "abd". *)
Lemma helper_reports_are_well_formed_example :
  helper_pre KCStr example_state 1%N 9%N = true
  /\ reported (CheckEqualsHelper KCStr "t.cc" 7 "a" 1%N "b" 9%N
                 example_state)
     = Some (FatalCall "t.cc" 7
               ("CHECK_EQ(%s, %s) failed" +:+ LF +:+ "#   Expected: %s" +:+
                LF +:+ "#   Found: %s")
               [ArgText "a"; ArgText "b"; ArgCStr 1; ArgCStr 9])
  /\ is_Some (message (fun _ => "") (fun _ => "") (memory example_state)
                (FatalCall "t.cc" 7
                   ("CHECK_EQ(%s, %s) failed" +:+ LF +:+
                    "#   Expected: %s" +:+ LF +:+ "#   Found: %s")
                   [ArgText "a"; ArgText "b"; ArgCStr 1; ArgCStr 9])).
Proof.
  pose proof (helper_reports_are_well_formed KCStr example_state "t.cc" 7
                "a" "b" 1%N 9%N (fun _ => "") (fun _ => "")
                (FatalCall "t.cc" 7
                   ("CHECK_EQ(%s, %s) failed" +:+ LF +:+
                    "#   Expected: %s" +:+ LF +:+ "#   Found: %s")
                   [ArgText "a"; ArgText "b"; ArgCStr 1; ArgCStr 9])
                eq_refl) as (Heq & _).
  split; [reflexivity|]. split; [reflexivity|].
  apply Heq. reflexivity.
Defined.

(** ** The text of the 64-bit equals-mode report *)

(** The scenario of the specification, as an instance of
    [int64_equals_report]. *)
Lemma int64_equals_report_example :
  4294967298 <> 3
  /\ exists c,
      CheckEqualsHelper_int64 "t.cc" 7 "a" 4294967298 "b" 3 example_state
      = (Fatal c, example_state)
      /\ message (fun _ => "") (fun _ => "") (memory example_state) c
         = Some ("CHECK_EQ(a, b) failed" +:+ LF +:+
                 "#   Expected: 0x0000000100000002" +:+ LF +:+
                 "#   Found: 0x0000000000000003").
Proof.
  assert (Hne : 4294967298 <> 3) by lia.
  split; [exact Hne|].
  destruct (int64_equals_report (fun _ => "") (fun _ => "") example_state
              "t.cc" 7 "a" "b" 4294967298 3 Hne)
    as (c & Hrun & _ & _ & Hmsg).
  exists c. split; [exact Hrun | exact Hmsg].
Defined.
